(** * Thesyn: the Gemini service layer (src/services/geminiService.ts)
      and the context construction of the App component.

    A shallow embedding of the TypeScript service functions, with the
    effects they perform (remote calls, timers, console output) recorded
    in a chronological trace, and the properties of the retry helper,
    the chat history construction, the grounding source extraction,
    the speech input truncation and the PCM decoding. *)

From Stdlib Require Import ZArith QArith Lia Ascii String.
From Stdlib Require Import Strings.Byte.
From stdpp Require Import list strings pretty.
From Equations Require Import Equations.

Local Open Scope string_scope.
Local Open Scope list_scope.

(** ** JavaScript strings

    A JS string is a sequence of code units; [string] plays that role.
    The three String.prototype methods the service uses are written out. *)

Module Js.

Fixpoint take (n : nat) (s : string) : string :=
  match n, s with
  | S n', String c s' => String c (take n' s')
  | _, _ => EmptyString
  end.

Fixpoint drop (n : nat) (s : string) : string :=
  match n, s with
  | S n', String _ s' => drop n' s'
  | _, _ => s
  end.

Definition clamp (len x : Z) : Z := Z.max 0 (Z.min len x).

(** [s.substring(start, end)]: both indices are clamped to
    [0, s.length] and swapped when start > end. *)
Definition substring (s : string) (start end_ : Z) : string :=
  let len := Z.of_nat (String.length s) in
  let a := clamp len start in
  let b := clamp len end_ in
  let lo := Z.min a b in
  let hi := Z.max a b in
  take (Z.to_nat (hi - lo)) (drop (Z.to_nat lo) s).

(** [s.includes(needle)] *)
Fixpoint includes (s needle : string) : bool :=
  String.prefix needle s ||
  match s with
  | EmptyString => false
  | String _ s' => includes s' needle
  end.

(** [s.split(sep)] for a one-character separator. *)
Fixpoint split (sep : ascii) (s : string) : list string :=
  match s with
  | EmptyString => [EmptyString]
  | String c s' =>
      if Ascii.eqb c sep then EmptyString :: split sep s'
      else match split sep s' with
           | [] => [String c EmptyString]
           | h :: t => String c h :: t
           end
  end.

(** Truthiness of a possibly-undefined string: [undefined] and the
    empty string are falsy. *)
Definition truthy (o : option string) : bool :=
  match o with
  | Some s => negb (String.eqb s "")
  | None => false
  end.

(** [o || fallback] on a possibly-undefined string. *)
Definition or_else (o : option string) (fallback : string) : string :=
  match o with
  | Some s => if String.eqb s "" then fallback else s
  | None => fallback
  end.

End Js.

(** ** Thrown values

    The values the service catches are Error objects of the SDK or made
    with [new Error(msg)]: an optional numeric [status] and an optional
    [message]. *)

Record JsError := mkError { status : option Z; message : option string }.

Definition new_Error (msg : string) : JsError :=
  {| status := None; message := Some msg |}.

Definition status_is (e : JsError) (code : Z) : bool :=
  match status e with
  | Some s => Z.eqb s code
  | None => false
  end.

(** [error.message?.includes(marker)]: undefined (falsy) without a message. *)
Definition message_includes (e : JsError) (marker : string) : bool :=
  match message e with
  | Some m => Js.includes m marker
  | None => false
  end.

(** Line 29 of geminiService.ts. *)
Definition isRetryable (e : JsError) : bool :=
  status_is e 500 || status_is e 503
  || message_includes e "500" || message_includes e "Internal error".

(** ** Types of src/types.ts *)

Inductive ComprehensionLevel := HighSchool | Undergraduate | Graduate.

Definition level_text (l : ComprehensionLevel) : string :=
  match l with
  | HighSchool => "High School"
  | Undergraduate => "Undergraduate"
  | Graduate => "Graduate"
  end.

Inductive DocumentInputType := pdf | text | url.

Inductive Role := user | model.

(** ** Requests and responses of the SDK *)

Inductive Part :=
| TextPart (t : string)
| InlineData (mimeType : string) (data : option string).

Record Content := mkContent { role : option Role; parts : list Part }.

Inductive Config :=
| JsonSchemaConfig (thinkingBudget : Z)
| GoogleSearchConfig
| AudioConfig (voiceName : string)
| NoConfig.

Inductive Request :=
| GenerateContent (modelName : string) (contents : Content) (config : Config)
| ChatSendMessage (modelName : string) (systemInstruction : string)
    (history : list Content) (msg : string).

Record Web := mkWeb { title : option string; uri : option string }.
Record Chunk := mkChunk { web : option Web }.

(** The fields of a response the service reads: [response.text],
    [candidates?.[0]?.groundingMetadata?.groundingChunks] and
    [candidates?.[0]?.content?.parts?.[0]?.inlineData?.data]. *)
Record Response := mkResponse {
  response_text : option string;
  groundingChunks : option (list Chunk);
  inlineAudio : option string
}.

(** ** Effects *)

Inductive Event :=
| EvRemote (req : Request)
| EvSleep (ms : Z)
| EvWarn (retriesLeft : Z)
| EvError (label : string)
| EvAlert (msg : string).

Definition Trace := list Event.

Inductive Res (T : Type) :=
| Ok (v : T)
| Throw (e : JsError).
Arguments Ok {T} v.
Arguments Throw {T} e.

Definition M (T : Type) : Type := Trace -> Res T * Trace.

Definition ret {T} (v : T) : M T := fun tr => (Ok v, tr).
Definition throw {T} (e : JsError) : M T := fun tr => (Throw e, tr).
Definition bind {A B} (m : M A) (k : A -> M B) : M B :=
  fun tr => match m tr with
            | (Ok v, tr') => k v tr'
            | (Throw e, tr') => (Throw e, tr')
            end.
Definition try_catch {T} (body : M T) (handler : JsError -> M T) : M T :=
  fun tr => match body tr with
            | (Ok v, tr') => (Ok v, tr')
            | (Throw e, tr') => handler e tr'
            end.
Definition emit (ev : Event) : M unit := fun tr => (Ok tt, tr ++ [ev]).

Declare Scope js_scope.
Delimit Scope js_scope with js.
Notation "x <- m ;; k" := (bind m (fun x => k))
  (at level 100, m at next level, right associativity) : js_scope.
Notation "m ;;; k" := (bind m (fun _ => k))
  (at level 100, right associativity) : js_scope.

Definition is_remote (ev : Event) : bool :=
  match ev with EvRemote _ => true | _ => false end.

Definition remote_calls (tr : Trace) : nat := length (List.filter is_remote tr).

Definition sleeps (tr : Trace) : list Z :=
  flat_map (fun ev => match ev with EvSleep d => [d] | _ => [] end) tr.

(** ** The retry helper (lines 22-38) *)

Definition default_retries : Z := 3.
Definition default_delay : Z := 1000.

Equations? retryOperation {T} (operation : M T) (retries delay : Z) (tr : Trace)
  : Res T * Trace by wf (Z.to_nat retries) lt :=
retryOperation operation retries delay tr with operation tr => {
  | (Ok v, tr1) => (Ok v, tr1)
  | (Throw error, tr1) with Z_le_gt_dec retries 0 => {
    | left _ => (Throw error, tr1)
    | right _ with isRetryable error => {
      | true => retryOperation operation (retries - 1) (delay * 2)
                  (tr1 ++ [EvWarn retries; EvSleep delay])
      | false => (Throw error, tr1) } } }.
Proof. lia. Qed.

(** ** The platform: files, data URLs, typed arrays

    [FileReader.readAsDataURL] and [Int16Array] belong to the browser;
    they are written out here as the platform defines them, because the
    service's results depend on the shape of what they return. *)

Module Browser.

Record File := mkFile { file_type : string; file_bytes : list byte }.

Definition base64_alphabet : string :=
  "ABCDEFGHIJKLMNOPQRSTUVWXYZabcdefghijklmnopqrstuvwxyz0123456789+/".

Definition base64_digit (n : N) : ascii :=
  match String.get (N.to_nat n) base64_alphabet with
  | Some c => c
  | None => "="%char
  end.

Fixpoint base64_encode (bs : list byte) : string :=
  match bs with
  | [] => ""
  | [a] =>
      let x := Byte.to_N a in
      String (base64_digit (N.shiftr x 2))
        (String (base64_digit (N.shiftl (N.land x 3) 4)) "==")
  | [a; b] =>
      let x := Byte.to_N a in
      let y := Byte.to_N b in
      String (base64_digit (N.shiftr x 2))
        (String (base64_digit (N.lor (N.shiftl (N.land x 3) 4) (N.shiftr y 4)))
           (String (base64_digit (N.shiftl (N.land y 15) 2)) "="))
  | a :: b :: c :: rest =>
      let x := Byte.to_N a in
      let y := Byte.to_N b in
      let z := Byte.to_N c in
      String (base64_digit (N.shiftr x 2))
        (String (base64_digit (N.lor (N.shiftl (N.land x 3) 4) (N.shiftr y 4)))
           (String (base64_digit (N.lor (N.shiftl (N.land y 15) 2) (N.shiftr z 6)))
              (String (base64_digit (N.land z 63)) (base64_encode rest))))
  end.

Fixpoint all_chars (P : ascii -> bool) (s : string) : bool :=
  match s with
  | EmptyString => true
  | String c s' => P c && all_chars P s'
  end.

Fixpoint occurs (c : ascii) (s : string) : bool :=
  match s with
  | EmptyString => false
  | String d s' => Ascii.eqb c d || occurs c s'
  end.

(** A character of the base64 alphabet, or the padding character. *)
Definition is_base64_char (c : ascii) : bool :=
  occurs c base64_alphabet || Ascii.eqb c "=".

(** The result of [reader.readAsDataURL(file)]; reading is taken to
    succeed (a read error rejects the promise before any request). *)
Definition readAsDataURL (f : File) : string :=
  "data:" ++ file_type f ++ ";base64," ++ base64_encode (file_bytes f).

(** One element of an [Int16Array] view: two bytes, little-endian,
    two's complement. *)
Definition int16_le (lo hi : byte) : Z :=
  let u := Z.lor (Z.of_N (Byte.to_N lo)) (Z.shiftl (Z.of_N (Byte.to_N hi)) 8) in
  (u + 32768) mod 65536 - 32768.

Fixpoint int16_view (bs : list byte) : list Z :=
  match bs with
  | lo :: hi :: rest => int16_le lo hi :: int16_view rest
  | _ => []
  end.

(** [new Int16Array(buffer)] throws a RangeError unless the byte length
    is a multiple of 2. *)
Definition new_Int16Array (rawBuffer : list byte) : Res (list Z) :=
  if Nat.even (length rawBuffer) then Ok (int16_view rawBuffer)
  else Throw (new_Error "byte length of Int16Array should be a multiple of 2").

Record AudioBuffer := mkAudioBuffer {
  numberOfChannels : nat;
  frames : nat;
  sampleRate : Z;
  channelData : list Q
}.

(** [context.createBuffer(channels, length, sampleRate)]: a zero-filled
    buffer; a length of zero is refused with a NotSupportedError. The
    sample rate is taken to be one the context supports. *)
Definition createBuffer (channels frameCount : nat) (rate : Z) : Res AudioBuffer :=
  if Nat.eqb frameCount 0 then Throw (new_Error "NotSupportedError")
  else Ok {| numberOfChannels := channels; frames := frameCount;
             sampleRate := rate; channelData := replicate frameCount 0%Q |}.

End Browser.
Import Browser.

(** ** The environment of the service: the remote capability and the
    two builtins whose failures the service lets through. *)

Record AnalysisResult := mkAnalysis {
  summary : string;
  glossary : list (string * string);
  keyInsights : list string
}.

Record Env := mkEnv {
  (** the outcome of the n-th remote call (n counted from 0) *)
  backend : nat -> Request -> Res Response;
  JSON_parse : string -> Res AnalysisResult;
  atob : string -> Res string
}.

Record GroundingSource := mkSource { source_title : option string; source_uri : option string }.

Record SearchResult := mkSearch { search_text : string; sources : list GroundingSource }.

Inductive DocumentContext :=
| TextContext (content : string)
| PdfContext (content : option string)
| UrlContext (content : string).

Inductive Payload :=
| FilePayload (f : File)
| StringPayload (s : string).

(** ** The service functions *)

(** lines 7-19: the promise resolves with [reader.result.split(',')[1]],
    which is [undefined] when the data URL has no comma. *)
Definition fileToGenerativePart (file : File) : M (option string) :=
  let base64String := readAsDataURL file in
  let base64Data := Js.split "," base64String !! 1%nat in
  ret base64Data.

(** The loop of lines 52-55: [for (let i = 0; i < n; i++) ch[i] = f(i)]. *)
Definition fill (f : nat -> Q) (n : nat) (ch : list Q) : list Q :=
  fold_left (fun ch (i : nat) => <[i := f i]> ch) (seq 0 n) ch.

(** lines 41-58 *)
Definition createAudioBufferFromPCM (rawBuffer : list byte) (rate : Z) : Res AudioBuffer :=
  match new_Int16Array rawBuffer with
  | Throw e => Throw e
  | Ok data =>
      let channelCount := 1%nat in
      let frameCount := length data in
      match createBuffer channelCount frameCount rate with
      | Throw e => Throw e
      | Ok audioBuffer =>
          let filled :=
            fill (fun i => (inject_Z (nth i data 0%Z) / 32768)%Q)
                 frameCount (channelData audioBuffer) in
          Ok {| numberOfChannels := numberOfChannels audioBuffer;
                frames := frames audioBuffer;
                sampleRate := sampleRate audioBuffer;
                channelData := filled |}
      end
  end.

Definition default_sampleRate : Z := 24000.

Definition newline : string := String (ascii_of_nat 10) EmptyString.

(** lines 66-76 *)
Definition analysis_prompt (level : ComprehensionLevel) : string :=
  (newline ++
  "    Analyze the provided research paper content. " ++ newline ++
  "    Target Audience Level: " ++ level_text level ++ "." ++ newline ++
  "    " ++ newline ++
  "    Please provide:" ++ newline ++
  "    1. A comprehensive summary suited for the target audience." ++ newline ++
  "    2. A glossary of 5-10 key technical terms used in the text with simple definitions." ++ newline ++
  "    3. 3-5 key insights or takeaways from the paper." ++ newline ++
  newline ++
  "    Output pure JSON." ++ newline ++
  "  ")%string.

(** lines 101-117: how the analysis request frames the document *)
Definition analysis_parts (context : DocumentContext) (prompt : string) : list Part :=
  match context with
  | PdfContext content =>
      [InlineData "application/pdf" content; TextPart prompt]
  | UrlContext content =>
      [TextPart ("Please read and analyze the research paper at this URL: " ++ content);
       TextPart prompt]
  | TextContext content =>
      [TextPart content; TextPart prompt]
  end.

(** lines 153-161 *)
Definition systemInstruction : string :=
  ("You are a helpful research assistant. Answer questions strictly based on the provided research paper context. If the answer is not in the context, state that." ++ newline ++
  newline ++
  "  IMPORTANT: Respond in clean plain text only." ++ newline ++
  "  - Do not use any Markdown formatting such as bold, italics, headings, bullet points, or symbols." ++ newline ++
  "  - Do not wrap text with asterisks (" ++ "*), hashes (#), dashes (-), or any special formatting markers." ++ newline ++
  "  - Write every answer in simple, natural, paragraph-style plain text." ++ newline ++
  "  - Keep explanations clear, direct, and conversational." ++ newline ++
  "  - Do not add decorative formatting. No bold, no italics, no lists, no emojis." ++ newline ++
  "  - If you need to emphasize something, use natural language instead of formatting.")%string.

(** lines 164-183: the seed turn that carries the document *)
Definition contextMessage (context : DocumentContext) : Content :=
  match context with
  | PdfContext content =>
      {| role := Some user;
         parts := [TextPart "Here is the research paper to reference:";
                   InlineData "application/pdf" content] |}
  | UrlContext content =>
      {| role := Some user;
         parts := [TextPart ("Here is the URL of the research paper to reference: " ++ content)] |}
  | TextContext content =>
      {| role := Some user;
         parts := [TextPart ("Here is the text of the research paper to reference:"
                             ++ newline ++ newline ++ Js.substring content 0 30000)] |}
  end.

Definition acknowledgment : Content :=
  {| role := Some model;
     parts := [TextPart "I have read the paper. How can I help you?"] |}.

(** line 186 *)
Definition fullHistory (context : DocumentContext) (history : list Content) : list Content :=
  contextMessage context :: acknowledgment :: history.

(** *** The chat object of the SDK

    The SDK is not part of the repository; what follows writes out the
    two functions of its chat module that decide what [sendMessage]
    sends. A chat keeps the history it was created with, and sends its
    curated form followed by the new message as a user turn. *)

(** [isValidContent]: a content with no part is invalid (a part of this
    model is never an empty object). *)
Definition isValidContent (c : Content) : bool :=
  match parts c with
  | [] => false
  | _ :: _ => true
  end.

Definition is_user_turn (c : Content) : bool :=
  match role c with
  | Some user => true
  | _ => false
  end.

(** The state of [extractCuratedHistory]'s scan: what it has kept, the
    run of model turns it is reading, and whether that run is valid. *)
Record Curation := mkCuration {
  curatedHistory : list Content;
  modelOutput : list Content;
  isValid : bool
}.

(** The end of a run of model turns: a valid run is kept; an invalid one
    is dropped together with the user turn before it. *)
Definition close_run (st : Curation) : list Content :=
  match modelOutput st with
  | [] => curatedHistory st
  | _ :: _ =>
      if isValid st then curatedHistory st ++ modelOutput st
      else removelast (curatedHistory st)
  end.

Definition curation_step (st : Curation) (c : Content) : Curation :=
  if is_user_turn c
  then {| curatedHistory := close_run st ++ [c]; modelOutput := []; isValid := true |}
  else {| curatedHistory := curatedHistory st;
          modelOutput := modelOutput st ++ [c];
          isValid := isValid st && isValidContent c |}.

(** [extractCuratedHistory] *)
Definition extractCuratedHistory (history : list Content) : list Content :=
  close_run (fold_left curation_step history
               {| curatedHistory := []; modelOutput := []; isValid := true |}).

(** What a request puts on the wire. For a chat: the curated form of
    the history the chat was created with, then the message as a user
    turn. *)
Definition transmitted (req : Request) : list Content :=
  match req with
  | GenerateContent _ contents _ => [contents]
  | ChatSendMessage _ _ history msg =>
      extractCuratedHistory history ++ [{| role := Some user; parts := [TextPart msg] |}]
  end.

(** A part that carries something: inline data, or a non-empty text. *)
Definition carries_content (p : Part) : bool :=
  match p with
  | TextPart t => negb (String.eqb t "")
  | InlineData _ _ => true
  end.

(** A turn as the callers of the service build them: it has a role, at
    least one part, and no empty text. *)
Definition well_formed_turn (c : Content) : Prop :=
  role c <> None /\ parts c <> [] /\ forallb carries_content (parts c) = true.

Definition seed_header : string :=
  ("Here is the text of the research paper to reference:" ++ newline ++ newline)%string.

(** lines 219-231: [chunks.forEach] pushing onto [sources] *)
Definition extractSources (chunks : option (list Chunk)) : list GroundingSource :=
  match chunks with
  | Some chunks =>
      fold_left
        (fun sources chunk =>
           match web chunk with
           | Some w => sources ++ [{| source_title := title w; source_uri := uri w |}]
           | None => sources
           end)
        chunks []
  | None => []
  end.

Definition unavailable : SearchResult :=
  {| search_text := "Search currently unavailable."; sources := [] |}.

(** The requests the service builds. *)

(** lines 120-130 *)
Definition analysisRequest (parts : list Part) : Request :=
  GenerateContent "gemini-3-pro-preview"
    {| role := Some user; parts := parts |} (JsonSchemaConfig 32768).

(** lines 189-197: the chat is created with the full history and the
    new message is sent through it. *)
Definition chatRequest (history : list Content) (newMessage : string)
    (context : DocumentContext) : Request :=
  ChatSendMessage "gemini-3-pro-preview" systemInstruction
    (fullHistory context history) newMessage.

(** lines 208-214 *)
Definition searchRequest (query : string) : Request :=
  GenerateContent "gemini-2.5-flash"
    {| role := None;
       parts := [TextPart ("Find recent information related to: " ++ query)] |}
    GoogleSearchConfig.

(** lines 243-254 *)
Definition speechRequest (text : string) : Request :=
  GenerateContent "gemini-2.5-flash-preview-tts"
    {| role := None; parts := [TextPart (Js.substring text 0 400)] |}
    (AudioConfig "Fenrir").

(** lines 287-295 *)
Definition transcriptionRequest (mimeType : string) (base64Audio : option string) : Request :=
  GenerateContent "gemini-2.5-flash"
    {| role := None;
       parts := [InlineData mimeType base64Audio;
                 TextPart "Transcribe this audio exactly as spoken. Return only the transcription, no other text."] |}
    NoConfig.

Section Service.

Variable env : Env.

Local Open Scope js_scope.

(** One request to the remote capability. *)
Definition remote (req : Request) : M Response :=
  fun tr => (backend env (remote_calls tr) req, tr ++ [EvRemote req]).

(** lines 119-136 *)
Definition generateOp (parts : list Part) : M AnalysisResult :=
  response <- remote (analysisRequest parts) ;;
  match response_text response with
  | Some t => if Js.truthy (Some t) then fun tr => (JSON_parse env t, tr)
              else throw (new_Error "No response generated")
  | None => throw (new_Error "No response generated")
  end.

(** lines 61-144 *)
Definition analyzeDocument (context : DocumentContext) (level : ComprehensionLevel)
  : M AnalysisResult :=
  let prompt := analysis_prompt level in
  let parts := analysis_parts context prompt in
  try_catch
    (retryOperation (generateOp parts) default_retries default_delay)
    (fun error => emit (EvError "Analysis failed") ;;; throw error).

(** lines 147-203 *)
Definition sendChatMessage (history : list Content) (newMessage : string)
    (context : DocumentContext) : M string :=
  try_catch
    (result <- remote (chatRequest history newMessage context) ;;
     ret (Js.or_else (response_text result) "I couldn't generate a response."))
    (fun _ => emit (EvError "Chat failed") ;;;
              ret "Sorry, I encountered an error processing your request."%string).

(** lines 206-238 *)
Definition searchRelatedTopics (query : string) : M SearchResult :=
  try_catch
    (response <- remote (searchRequest query) ;;
     let text := Js.or_else (response_text response) "No results found." in
     let sources := extractSources (groundingChunks response) in
     ret {| search_text := text; sources := sources |})
    (fun _ => emit (EvError "Search failed") ;;; ret unavailable).

(** lines 241-271 *)
Definition generateSpeech (text : string) : M (list byte) :=
  try_catch
    (response <- remote (speechRequest text) ;;
     match inlineAudio response with
     | Some base64Audio =>
         if Js.truthy (Some base64Audio) then
           binaryString <- (fun tr => (atob env base64Audio, tr)) ;;
           ret (list_byte_of_string binaryString)
         else throw (new_Error "No audio data returned")
     | None => throw (new_Error "No audio data returned")
     end)
    (fun error => emit (EvError "TTS failed") ;;; throw error).

(** lines 274-302 *)
Definition transcribeUserAudio (audioBlob : File) : M string :=
  try_catch
    (let base64Audio := Js.split "," (readAsDataURL audioBlob) !! 1%nat in
     response <- remote (transcriptionRequest (file_type audioBlob) base64Audio) ;;
     ret (Js.or_else (response_text response) ""))
    (fun error => emit (EvError "Transcription failed") ;;; throw error).

(** App component, lines 15-26 of handleAnalyze: the document context
    is built from the discriminator and the payload. *)
Definition buildContext (type : DocumentInputType) (content : Payload) : M DocumentContext :=
  match type, content with
  | pdf, FilePayload file =>
      base64Data <- fileToGenerativePart file ;;
      ret (PdfContext base64Data)
  | url, StringPayload s => ret (UrlContext s)
  | text, StringPayload s => ret (TextContext s)
  | _, _ => throw (new_Error "Invalid input")
  end.

(** App component, lines 12-38 *)
Definition handleAnalyze (type : DocumentInputType) (content : Payload)
    (level : ComprehensionLevel) : M unit :=
  try_catch
    (context <- buildContext type content ;;
     result <- analyzeDocument context level ;;
     ret tt)
    (fun error => emit (EvError (default "" (message error))) ;;;
                  emit (EvAlert "Analysis failed. Please try again.")).

End Service.

(** ** Reading a trace *)

Inductive Step := Attempt | Wait (ms : Z).

Definition step_of (ev : Event) : list Step :=
  match ev with
  | EvRemote _ => [Attempt]
  | EvSleep d => [Wait d]
  | _ => []
  end.

(** The attempts and the suspensions of a trace, in order. *)
Definition steps (tr : Trace) : list Step := flat_map step_of tr.

(** [n] retries with exponential backoff: an attempt, then [n] times a
    suspension followed by an attempt, the suspension doubling. *)
Fixpoint backoff_schedule (n : nat) (delay : Z) : list Step :=
  match n with
  | O => [Attempt]
  | S n' => Attempt :: Wait delay :: backoff_schedule n' (delay * 2)
  end.

Definition attempts (l : list Step) : nat :=
  length (List.filter (fun s => match s with Attempt => true | Wait _ => false end) l).

Definition waits (l : list Step) : list Z :=
  flat_map (fun s => match s with Attempt => [] | Wait d => [d] end) l.

(** An error the helper does not retry, in the words of the contract:
    no status 500 or 503, and a message (if any) with neither marker. *)
Definition terminal (e : JsError) : Prop :=
  status e <> Some 500%Z /\ status e <> Some 503%Z
  /\ forall m, message e = Some m ->
       Js.includes m "500" = false /\ Js.includes m "Internal error" = false.

(** Every invocation of the operation is one recorded remote call. *)
Definition one_remote_call {T} (op : M T) : Prop :=
  forall tr, exists req, snd (op tr) = tr ++ [EvRemote req].

(** Every invocation fails, with an error classified as retryable. *)
Definition always_transient {T} (op : M T) : Prop :=
  forall tr, exists e, fst (op tr) = Throw e /\ isRetryable e = true.

(** Every remote call fails, with an error classified as retryable. *)
Definition always_failing_transiently (env : Env) : Prop :=
  forall n req, exists e, backend env n req = Throw e /\ isRetryable e = true.

(** A service function whose remote call goes through the retry helper:
    against a backend that keeps failing transiently it runs the whole
    default schedule. *)
Definition retried_up_to_budget {T} (f : Env -> M T) : Prop :=
  forall env, always_failing_transiently env ->
  forall tr, exists ext,
    snd (f env tr) = tr ++ ext
    /\ steps ext = backoff_schedule (Z.to_nat default_retries) default_delay.

(** A service function that issues its remote call once and never
    suspends, whatever the backend answers. *)
Definition single_attempt {T} (f : Env -> M T) : Prop :=
  forall env tr, exists ext,
    snd (f env tr) = tr ++ ext /\ steps ext = [Attempt].

(** A service function that sends exactly the request [req], once, and
    does nothing else the schedule would show. *)
Definition sends_once {T} (f : Env -> M T) (req : Request) : Prop :=
  forall env tr, exists ext,
    snd (f env tr) = tr ++ EvRemote req :: ext /\ steps ext = [].

Definition source_of_web (w : Web) : GroundingSource :=
  {| source_title := title w; source_uri := uri w |}.

(** The sources as the contract words them: only the entries that carry
    both a title and a URI. *)
Definition sources_with_title_and_uri (chunks : list Chunk) : list GroundingSource :=
  flat_map
    (fun chunk =>
       match web chunk with
       | Some {| title := Some t; uri := Some u |} =>
           [{| source_title := Some t; source_uri := Some u |}]
       | _ => []
       end)
    chunks.

Definition user_turn (msg : string) : Content :=
  {| role := Some user; parts := [TextPart msg] |}.

(** ** The user interface handlers that call the service

    Each handler is written as one run from the state its closure
    captured to the state after its updates, with no other handler's
    update in between. *)

Module JsText.

(** White space for [String.prototype.trim], among the code units below
    256: tab, line feed, vertical tab, form feed, carriage return, space
    and no-break space. *)
Definition is_space (c : ascii) : bool :=
  let n := nat_of_ascii c in
  ((9 <=? n)%nat && (n <=? 13)%nat) || (n =? 32)%nat || (n =? 160)%nat.

Fixpoint trimStart (s : string) : string :=
  match s with
  | EmptyString => EmptyString
  | String c s' => if is_space c then trimStart s' else s
  end.

Fixpoint trimEnd (s : string) : string :=
  match s with
  | EmptyString => EmptyString
  | String c s' =>
      match trimEnd s' with
      | EmptyString => if is_space c then EmptyString else String c EmptyString
      | r => String c r
      end
  end.

(** [s.trim()] *)
Definition trim (s : string) : string := trimEnd (trimStart s).

(** [!s.trim()] *)
Definition blank (s : string) : bool := negb (Js.truthy (Some (trim s))).

End JsText.

(** *** The landing page (Landing component) *)

Module Landing.

Record State := mkState {
  activeTab : DocumentInputType;
  selectedLevel : ComprehensionLevel;
  textInput : string;
  urlInput : string;
  selectedFile : option File;
  dragActive : bool
}.

(** The initial values of the [useState] hooks. *)
Definition initial : State :=
  {| activeTab := pdf; selectedLevel := Undergraduate; textInput := "";
     urlInput := ""; selectedFile := None; dragActive := false |}.

Definition set_dragActive (b : bool) (st : State) : State :=
  {| activeTab := activeTab st; selectedLevel := selectedLevel st;
     textInput := textInput st; urlInput := urlInput st;
     selectedFile := selectedFile st; dragActive := b |}.

Definition set_selectedFile (f : option File) (st : State) : State :=
  {| activeTab := activeTab st; selectedLevel := selectedLevel st;
     textInput := textInput st; urlInput := urlInput st;
     selectedFile := f; dragActive := dragActive st |}.

Definition set_activeTab (t : DocumentInputType) (st : State) : State :=
  {| activeTab := t; selectedLevel := selectedLevel st;
     textInput := textInput st; urlInput := urlInput st;
     selectedFile := selectedFile st; dragActive := dragActive st |}.

(** handleDrag: [eventType] is [e.type]. *)
Definition handleDrag (eventType : string) (st : State) : State :=
  if String.eqb eventType "dragenter" || String.eqb eventType "dragover"
  then set_dragActive true st
  else if String.eqb eventType "dragleave" then set_dragActive false st
  else st.

(** handleDrop: [files] is [e.dataTransfer.files]. *)
Definition handleDrop (files : list File) (st : State) : M State :=
  let st := set_dragActive false st in
  match files with
  | file :: _ =>
      if String.eqb (file_type file) "application/pdf"
      then ret (set_activeTab pdf (set_selectedFile (Some file) st))
      else bind (emit (EvAlert "Please upload a PDF file.")) (fun _ => ret st)
  | [] => ret st
  end.


(** handleSubmit: the call of [onAnalyze] it makes, if any. *)
Definition handleSubmit (st : State)
  : option (DocumentInputType * Payload * ComprehensionLevel) :=
  match activeTab st with
  | pdf =>
      match selectedFile st with
      | Some file => Some (pdf, FilePayload file, selectedLevel st)
      | None => None
      end
  | text =>
      if JsText.blank (textInput st) then None
      else Some (text, StringPayload (textInput st), selectedLevel st)
  | url =>
      if JsText.blank (urlInput st) then None
      else Some (url, StringPayload (urlInput st), selectedLevel st)
  end.

Definition isSubmitDisabled (isProcessing : bool) (st : State) : bool :=
  if isProcessing then true
  else match activeTab st with
       | pdf => match selectedFile st with Some _ => false | None => true end
       | text => JsText.blank (textInput st)
       | url => JsText.blank (urlInput st)
       end.


End Landing.

(** *** The chat view (ChatView component) *)

Module ChatView.

Record ChatMessage := mkMessage {
  id : string;
  msg_role : Role;
  msg_text : string;
  isError : option bool
}.

Inductive ToastType := success | info | error.

Record State := mkState {
  messages : list ChatMessage;
  input : string;
  isLoading : bool;
  isTranscribing : bool;
  toast : option (string * ToastType)
}.

Definition greeting : ChatMessage :=
  {| id := "1"; msg_role := model;
     msg_text := "Hello! I've analyzed the paper. What would you like to know?";
     isError := None |}.

Definition initial : State :=
  {| messages := [greeting]; input := ""; isLoading := false;
     isTranscribing := false; toast := None |}.

(** lines 59-62 *)
Definition turn_of (m : ChatMessage) : Content :=
  {| role := Some (msg_role m); parts := [TextPart (msg_text m)] |}.

Definition with_messages (ms : list ChatMessage) (st : State) : State :=
  {| messages := ms; input := input st; isLoading := isLoading st;
     isTranscribing := isTranscribing st; toast := toast st |}.

Definition with_input (s : string) (st : State) : State :=
  {| messages := messages st; input := s; isLoading := isLoading st;
     isTranscribing := isTranscribing st; toast := toast st |}.

Definition with_isLoading (b : bool) (st : State) : State :=
  {| messages := messages st; input := input st; isLoading := b;
     isTranscribing := isTranscribing st; toast := toast st |}.



(** handleSubmit (lines 49-82); [now1], [now2] and [now3] are the
    readings of [Date.now()] at lines 53, 67 and 74. *)
Definition handleSubmit (env : Env) (context : DocumentContext)
    (now1 now2 now3 : Z) (st : State) : M State :=
  if JsText.blank (input st) || isLoading st then ret st
  else
    let userMsg := {| id := pretty now1; msg_role := user;
                      msg_text := input st; isError := None |} in
    let st1 := with_isLoading true
                 (with_input "" (with_messages (messages st ++ [userMsg]) st)) in
    bind
      (try_catch
         (let history := List.map turn_of (messages st) in
          bind (sendChatMessage env history (msg_text userMsg) context)
            (fun responseText =>
               let botMsg := {| id := pretty (now2 + 1)%Z; msg_role := model;
                                msg_text := responseText; isError := None |} in
               ret (with_messages (messages st1 ++ [botMsg]) st1)))
         (fun _ =>
            ret (with_messages
                   (messages st1 ++ [{| id := pretty now3; msg_role := model;
                                        msg_text := "Sorry, something went wrong.";
                                        isError := Some true |}])
                   st1)))
      (fun st2 => ret (with_isLoading false st2)).

(** ondataavailable (lines 92-96): empty chunks are not kept. *)
Definition ondataavailable (data : list byte) (chunks : list (list byte))
  : list (list byte) :=
  if (0 <? length data)%nat then chunks ++ [data] else chunks.



End ChatView.

(** *** The dashboard (AnalysisDashboard component) *)

Module Dashboard.

Record State := mkState {
  searchQuery : string;
  searchResults : option SearchResult;
  isSearching : bool;
  isPlayingAudio : bool;
  toast : option (string * ChatView.ToastType);
  (** the buffer handed to the source node that was started, if any *)
  started : option AudioBuffer
}.


Definition with_audio (playing : bool) (t : option (string * ChatView.ToastType))
    (buffer : option AudioBuffer) (st : State) : State :=
  {| searchQuery := searchQuery st; searchResults := searchResults st;
     isSearching := isSearching st;
     isPlayingAudio := playing; toast := t; started := buffer |}.

(** handlePlayAudio; [summary] is [analysis.summary]. *)
Definition handlePlayAudio (env : Env) (summary : string) (st : State) : M State :=
  if isPlayingAudio st then ret st
  else
    let st1 := with_audio true (Some ("Generating audio summary..."%string, ChatView.info))
                 (started st) st in
    try_catch
      (bind (generateSpeech env summary)
         (fun audioBufferData =>
            bind (fun tr => (createAudioBufferFromPCM audioBufferData 24000, tr))
              (fun audioBuffer =>
                 ret (with_audio true
                        (Some ("Playing summary audio"%string, ChatView.success))
                        (Some audioBuffer) st1))))
      (fun e =>
         bind (emit (EvError (default ""%string (message e))))
           (fun _ =>
              ret (with_audio false
                     (Some ("Failed to generate speech"%string, ChatView.error))
                     (started st1) st1))).

End Dashboard.

(** *** The MediaAnalysis component *)

Module MediaAnalysis.

Definition line_feed : ascii := ascii_of_nat 10.

(** [result.split('\n')]: one paragraph per piece. *)
Definition paragraphs (result : string) : list string := Js.split line_feed result.

(** The model named in the findings box. *)
Definition model_named (mediaType : string) : string :=
  if String.eqb mediaType "audio" then "gemini-2.5-flash" else "gemini-3-pro-preview".

(** [pieces.join(sep)] *)
Fixpoint join (sep : ascii) (pieces : list string) : string :=
  match pieces with
  | [] => EmptyString
  | [p] => p
  | p :: rest => (p ++ String sep (join sep rest))%string
  end.

Fixpoint count (c : ascii) (s : string) : nat :=
  match s with
  | EmptyString => 0
  | String d s' => (if Ascii.eqb d c then 1 else 0) + count c s'
  end.

End MediaAnalysis.

(** ** Outcomes of successive attempts *)

(** The outcome of an invocation depends only on how many remote calls
    were made before it. *)
Definition outcome_by_index {T} (op : M T) (out : nat -> Res T) : Prop :=
  forall tr, fst (op tr) = out (remote_calls tr).

Definition transient_outcome {T} (r : Res T) : Prop :=
  exists e, r = Throw e /\ isRetryable e = true.

(** A success, or a failure the helper does not retry. *)
Definition settled {T} (r : Res T) : Prop :=
  match r with
  | Ok _ => True
  | Throw e => isRetryable e = false
  end.

(** What an analysis attempt makes of the backend's answer (lines 132-135). *)
Definition analysis_outcome (env : Env) (r : Res Response) : Res AnalysisResult :=
  match r with
  | Throw e => Throw e
  | Ok response =>
      match response_text response with
      | Some t => if Js.truthy (Some t) then JSON_parse env t
                  else Throw (new_Error "No response generated")
      | None => Throw (new_Error "No response generated")
      end
  end.

(** ** Sample data *)

Module Sample.

Definition overloaded : JsError :=
  {| status := Some 503%Z; message := Some "The model is overloaded." |}.

Definition no_response : JsError := new_Error "No response generated".

Definition failing (e : JsError) : Env :=
  {| backend := fun _ _ => Throw e;
     JSON_parse := fun _ => Throw (new_Error "SyntaxError");
     atob := fun s => Ok s |}.

Definition replying (r : Response) : Env :=
  {| backend := fun _ _ => Ok r;
     JSON_parse := fun _ => Throw (new_Error "SyntaxError");
     atob := fun s => Ok s |}.

Definition answer : Response :=
  {| response_text := Some "The paper reports a new catalyst.";
     groundingChunks := None;
     inlineAudio := None |}.

Definition question : string := "What is the main finding?".

Definition photosynthesis : DocumentContext :=
  TextContext "Photosynthesis converts light to chemical energy.".

Definition untitled : Web :=
  {| title := None; uri := Some "https://example.org/preprint" |}.

Definition titled : Web :=
  {| title := Some "Nature"; uri := Some "https://www.nature.com/articles/x" |}.

Definition grounded : Response :=
  {| response_text := Some "Two recent results.";
     groundingChunks := Some [ {| web := Some untitled |};
                               {| web := None |};
                               {| web := Some titled |} ];
     inlineAudio := None |}.

Definition paper : File :=
  {| file_type := "application/pdf"; file_bytes := [x25; x50; x44; x46; x2d] |}.

Definition findings : AnalysisResult :=
  {| summary := "Light drives carbon fixation.";
     glossary := [("chloroplast", "the organelle where photosynthesis happens")];
     keyInsights := ["Light is converted to chemical energy."] |}.

Definition structured : Response :=
  {| response_text := Some "{...}"; groundingChunks := None; inlineAudio := None |}.

(** Two overloaded answers, then a good one. *)
Definition flaky : Env :=
  {| backend := fun n _ => if (n <? 2)%nat then Throw overloaded else Ok structured;
     JSON_parse := fun _ => Ok findings;
     atob := fun s => Ok s |}.

Definition syntax_error : JsError :=
  new_Error "Unexpected token } in JSON at position 1500".

(** Good answers that the parser refuses. *)
Definition unparsable : Env :=
  {| backend := fun _ _ => Ok structured;
     JSON_parse := fun _ => Throw syntax_error;
     atob := fun s => Ok s |}.

Definition silent : Response :=
  {| response_text := Some ""; groundingChunks := None; inlineAudio := Some "" |}.


Definition ping : Request :=
  GenerateContent "gemini-2.5-flash" {| role := None; parts := [TextPart "ping"] |} NoConfig.

End Sample.

(** ** Properties of the retry helper *)

Lemma steps_app (a b : Trace) : steps (a ++ b) = steps a ++ steps b.
Proof. unfold steps. apply flat_map_app. Qed.

Lemma remote_calls_app (a b : Trace) :
  remote_calls (a ++ b) = (remote_calls a + remote_calls b)%nat.
Proof. unfold remote_calls. rewrite List.filter_app, length_app. reflexivity. Qed.

Lemma sleeps_app (a b : Trace) : sleeps (a ++ b) = sleeps a ++ sleeps b.
Proof. unfold sleeps. apply flat_map_app. Qed.

Lemma remote_calls_steps (tr : Trace) : remote_calls tr = attempts (steps tr).
Proof.
  induction tr as [| ev tr IH]; [reflexivity |].
  change (ev :: tr) with ([ev] ++ tr).
  rewrite remote_calls_app, steps_app. unfold attempts in *.
  rewrite List.filter_app, length_app, <- IH.
  destruct ev; reflexivity.
Qed.

Lemma sleeps_steps (tr : Trace) : sleeps tr = waits (steps tr).
Proof.
  induction tr as [| ev tr IH]; [reflexivity |].
  change (ev :: tr) with ([ev] ++ tr).
  rewrite sleeps_app, steps_app. unfold waits in *.
  rewrite flat_map_app, <- IH.
  destruct ev; reflexivity.
Qed.

Lemma attempts_backoff (n : nat) (delay : Z) :
  attempts (backoff_schedule n delay) = S n.
Proof.
  revert delay. induction n as [| n IH]; intros delay; [reflexivity |].
  simpl. unfold attempts in *. simpl. rewrite IH. reflexivity.
Qed.

Lemma waits_backoff (n : nat) (delay : Z) :
  waits (backoff_schedule n delay)
  = List.map (fun k => (delay * 2 ^ Z.of_nat k)%Z) (seq 0 n).
Proof.
  revert delay. induction n as [| n IH]; intros delay; [reflexivity |].
  cbn [backoff_schedule]. unfold waits in *. cbn [flat_map app].
  rewrite IH. cbn [seq List.map]. f_equal.
  - simpl. lia.
  - rewrite <- seq_shift, List.map_map.
    apply List.map_ext. intros k.
    rewrite Nat2Z.inj_succ, Z.pow_succ_r by lia. lia.
Qed.

Section Retry.

Context {T : Type}.
Implicit Types (op : M T) (tr : Trace) (e : JsError).

Lemma retryOperation_eq op retries delay tr :
  retryOperation op retries delay tr =
  match op tr with
  | (Ok v, tr1) => (Ok v, tr1)
  | (Throw e, tr1) =>
      if (retries <=? 0)%Z then (Throw e, tr1)
      else if isRetryable e
           then retryOperation op (retries - 1) (delay * 2)
                  (tr1 ++ [EvWarn retries; EvSleep delay])
           else (Throw e, tr1)
  end.
Proof.
  simp retryOperation.
  destruct (op tr) as [[v | e] tr1]; simpl; [reflexivity |].
  destruct (Z_le_gt_dec retries 0) as [Hle | Hgt]; simpl.
  - apply Z.leb_le in Hle. rewrite Hle. reflexivity.
  - assert (Hf : (retries <=? 0)%Z = false) by (apply Z.leb_gt; lia).
    rewrite Hf. destruct (isRetryable e); reflexivity.
Qed.

(** Whatever the outcomes, the helper runs a prefix of the schedule. *)
Lemma retry_runs_schedule_prefix op :
  one_remote_call op ->
  forall (n : nat) (delay : Z) tr,
  exists (m : nat) (ext : Trace),
    (m <= n)%nat
    /\ snd (retryOperation op (Z.of_nat n) delay tr) = tr ++ ext
    /\ steps ext = backoff_schedule m delay.
Proof.
  intros Hone n. induction n as [| n IH]; intros delay tr.
  - exists 0%nat. destruct (Hone tr) as [req Hreq].
    exists [EvRemote req]. rewrite retryOperation_eq.
    destruct (op tr) as [[v | e] tr1]; simpl in *; subst; auto.
  - destruct (Hone tr) as [req Hreq].
    rewrite retryOperation_eq.
    destruct (op tr) as [[v | e] tr1]; simpl in Hreq; subst tr1.
    + exists 0%nat, [EvRemote req]. simpl. split; [lia | auto].
    + assert (Hf : (Z.of_nat (S n) <=? 0)%Z = false) by (apply Z.leb_gt; lia).
      rewrite Hf. destruct (isRetryable e).
      * replace (Z.of_nat (S n) - 1)%Z with (Z.of_nat n) by lia.
        destruct (IH (delay * 2)%Z ((tr ++ [EvRemote req]) ++ [EvWarn (Z.of_nat (S n)); EvSleep delay]))
          as (m & ext & Hm & Hsnd & Hsteps).
        exists (S m), ([EvRemote req] ++ [EvWarn (Z.of_nat (S n)); EvSleep delay] ++ ext).
        split; [lia |]. split.
        -- rewrite Hsnd. rewrite <- !app_assoc. reflexivity.
        -- rewrite !steps_app, Hsteps. reflexivity.
      * exists 0%nat, [EvRemote req]. simpl. split; [lia | auto].
Qed.

(** When every attempt fails transiently, the whole schedule runs and
    the error of the last attempt comes out. *)
Lemma retry_runs_whole_schedule op :
  one_remote_call op -> always_transient op ->
  forall (n : nat) (delay : Z) tr,
  exists e (tr_last ext : Trace),
    retryOperation op (Z.of_nat n) delay tr = (Throw e, tr ++ ext)
    /\ steps ext = backoff_schedule n delay
    /\ op tr_last = (Throw e, tr ++ ext).
Proof.
  intros Hone Htrans n. induction n as [| n IH]; intros delay tr.
  - destruct (Hone tr) as [req Hreq]. destruct (Htrans tr) as (e & He & _).
    exists e, tr, [EvRemote req]. rewrite retryOperation_eq.
    destruct (op tr) as [r tr1]; simpl in *; subst. auto.
  - destruct (Hone tr) as [req Hreq]. destruct (Htrans tr) as (e & He & Hretry).
    rewrite retryOperation_eq.
    destruct (op tr) as [r tr1]; simpl in Hreq, He; subst r tr1.
    assert (Hf : (Z.of_nat (S n) <=? 0)%Z = false) by (apply Z.leb_gt; lia).
    rewrite Hf, Hretry.
    replace (Z.of_nat (S n) - 1)%Z with (Z.of_nat n) by lia.
    destruct (IH (delay * 2)%Z ((tr ++ [EvRemote req]) ++ [EvWarn (Z.of_nat (S n)); EvSleep delay]))
      as (e' & tr_last & ext & Hrun & Hsteps & Hlast).
    exists e', tr_last, ([EvRemote req] ++ [EvWarn (Z.of_nat (S n)); EvSleep delay] ++ ext).
    rewrite Hrun, Hlast, <- !app_assoc. repeat split.
    rewrite !steps_app, Hsteps. reflexivity.
Qed.

(** C1. The Retry Policy invokes the wrapped operation at most
    1 + maxRetries times; the k-th suspension (before attempt k+1) lasts
    initialDelay * 2^(k-1); when every attempt fails with a
    transient-classified error, all 1 + maxRetries attempts are made and
    the error of the last one is re-raised. With the default arguments
    (3 retries, 1000 ms) that is four attempts separated by suspensions
    of 1000, 2000 and 4000 ms. *)
Theorem retry_transient_budget op (retries delay : Z) tr :
  (0 <= retries)%Z ->
  one_remote_call op ->
  (exists (m : nat) (ext : Trace),
      (m <= Z.to_nat retries)%nat
      /\ snd (retryOperation op retries delay tr) = tr ++ ext
      /\ steps ext = backoff_schedule m delay
      /\ remote_calls ext = S m
      /\ (remote_calls ext <= 1 + Z.to_nat retries)%nat
      /\ sleeps ext = List.map (fun k => (delay * 2 ^ Z.of_nat k)%Z) (seq 0 m))
  /\ (always_transient op ->
      (exists e (tr_last ext : Trace),
          retryOperation op retries delay tr = (Throw e, tr ++ ext)
          /\ op tr_last = (Throw e, tr ++ ext)
          /\ steps ext = backoff_schedule (Z.to_nat retries) delay
          /\ remote_calls ext = S (Z.to_nat retries)
          /\ sleeps ext
             = List.map (fun k => (delay * 2 ^ Z.of_nat k)%Z) (seq 0 (Z.to_nat retries)))
      /\ (exists e (ext : Trace),
          retryOperation op default_retries default_delay tr = (Throw e, tr ++ ext)
          /\ remote_calls ext = 4%nat
          /\ sleeps ext = [1000; 2000; 4000]%Z)).
Proof.
  intros Hpos Hone. split.
  - destruct (retry_runs_schedule_prefix op Hone (Z.to_nat retries) delay tr)
      as (m & ext & Hm & Hsnd & Hsteps).
    rewrite Z2Nat.id in Hsnd by exact Hpos.
    exists m, ext. repeat split; auto.
    + rewrite remote_calls_steps, Hsteps. apply attempts_backoff.
    + rewrite remote_calls_steps, Hsteps, attempts_backoff. lia.
    + rewrite sleeps_steps, Hsteps. apply waits_backoff.
  - intros Htrans. split.
    + destruct (retry_runs_whole_schedule op Hone Htrans (Z.to_nat retries) delay tr)
        as (e & tr_last & ext & Hrun & Hsteps & Hlast).
      rewrite Z2Nat.id in Hrun by exact Hpos.
      exists e, tr_last, ext. repeat split; auto.
      * rewrite remote_calls_steps, Hsteps. apply attempts_backoff.
      * rewrite sleeps_steps, Hsteps. apply waits_backoff.
    + destruct (retry_runs_whole_schedule op Hone Htrans 3%nat default_delay tr)
        as (e & tr_last & ext & Hrun & Hsteps & Hlast).
      exists e, ext. repeat split; auto.
      * rewrite remote_calls_steps, Hsteps. reflexivity.
      * rewrite sleeps_steps, Hsteps. reflexivity.
Qed.

Lemma terminal_not_retryable e : terminal e <-> isRetryable e = false.
Proof.
  unfold terminal, isRetryable, status_is, message_includes.
  destruct e as [[s |] [m |]]; simpl; split.
  - intros (H1 & H2 & H3). destruct (H3 m eq_refl) as [-> ->].
    destruct (Z.eqb_spec s 500); [congruence |].
    destruct (Z.eqb_spec s 503); [congruence | reflexivity].
  - intros H. repeat (apply orb_false_iff in H; destruct H as [H ?]).
    apply Z.eqb_neq in H. repeat split; try congruence.
    match goal with H' : (s =? 503)%Z = false |- _ => apply Z.eqb_neq in H' end.
    congruence.
  - intros (H1 & H2 & _).
    destruct (Z.eqb_spec s 500); [congruence |].
    destruct (Z.eqb_spec s 503); [congruence | reflexivity].
  - intros H. repeat (apply orb_false_iff in H; destruct H as [H ?]).
    apply Z.eqb_neq in H. repeat split; try congruence.
    match goal with H' : (s =? 503)%Z = false |- _ => apply Z.eqb_neq in H' end.
    congruence.
  - intros (_ & _ & H3). destruct (H3 m eq_refl) as [-> ->]. reflexivity.
  - intros H. repeat (apply orb_false_iff in H; destruct H as [H ?]).
    repeat split; try congruence.
  - reflexivity.
  - intros _. repeat split; congruence.
Qed.

(** C2. An operation that fails with a terminal-classified error is
    invoked exactly once: the helper ends in the state the single
    invocation left, with that error re-raised, whatever the retry
    budget; no suspension and no further call takes place. *)
Theorem retry_terminal_once op (retries delay : Z) tr e tr1 :
  op tr = (Throw e, tr1) ->
  terminal e ->
  retryOperation op retries delay tr = (Throw e, tr1)
  /\ (one_remote_call op ->
      remote_calls (snd (retryOperation op retries delay tr)) = S (remote_calls tr)
      /\ sleeps (snd (retryOperation op retries delay tr)) = sleeps tr).
Proof.
  intros Hop Hterm. apply terminal_not_retryable in Hterm.
  assert (Hrun : retryOperation op retries delay tr = (Throw e, tr1)).
  { rewrite retryOperation_eq, Hop, Hterm. destruct (retries <=? 0)%Z; reflexivity. }
  split; [exact Hrun |].
  intros Hone. destruct (Hone tr) as [req Hreq].
  rewrite Hrun. rewrite Hop in Hreq. simpl in *. subst tr1.
  rewrite remote_calls_app, sleeps_app. simpl.
  rewrite app_nil_r. split; [unfold remote_calls; simpl; lia | reflexivity].
Qed.

End Retry.

Lemma remote_one_call (env : Env) (req : Request) : one_remote_call (remote env req).
Proof. intros tr. exists req. reflexivity. Qed.

Lemma failing_always_transient (e : JsError) (req : Request) :
  isRetryable e = true -> always_transient (remote (Sample.failing e) req).
Proof. intros He tr. exists e. split; [reflexivity | exact He]. Qed.

Lemma retry_transient_budget_witness :
  exists e ext,
    retryOperation (remote (Sample.failing Sample.overloaded) Sample.ping) 3 1000 []
    = (@Throw Response e, ext)
    /\ remote_calls ext = 4%nat
    /\ sleeps ext = [1000; 2000; 4000]%Z.
Proof.
  destruct (retry_transient_budget
              (remote (Sample.failing Sample.overloaded) Sample.ping) 3 1000 []
              ltac:(lia) (remote_one_call _ _)) as [_ Hall].
  destruct (Hall (failing_always_transient Sample.overloaded Sample.ping eq_refl))
    as [(e & tr_last & ext & Hrun & _ & _ & Hcalls & Hsleeps) _].
  exists e, ext. repeat split; [exact Hrun | exact Hcalls | exact Hsleeps].
Defined.

Lemma no_response_terminal : terminal Sample.no_response.
Proof.
  repeat split; try discriminate;
    match goal with H : message _ = Some _ |- _ => injection H as <- end; reflexivity.
Qed.

Lemma retry_terminal_once_witness :
  retryOperation (remote (Sample.failing Sample.no_response) Sample.ping) 3 1000 []
  = (@Throw Response Sample.no_response, [EvRemote Sample.ping]).
Proof.
  exact (proj1 (retry_terminal_once
                  (remote (Sample.failing Sample.no_response) Sample.ping)
                  3 1000 [] Sample.no_response [EvRemote Sample.ping]
                  eq_refl no_response_terminal)).
Defined.

(** ** Which service functions retry *)

Lemma generateOp_one_call (env : Env) (parts : list Part) :
  one_remote_call (generateOp env parts).
Proof.
  intros tr. exists (analysisRequest parts).
  unfold generateOp, bind, remote, throw.
  destruct (backend env (remote_calls tr) (analysisRequest parts)) as [r | e]; simpl;
    [| reflexivity].
  destruct (response_text r) as [t |]; [| reflexivity].
  unfold Js.truthy. destruct (negb (t =? ""))%string; reflexivity.
Qed.

Lemma generateOp_always_transient (env : Env) (parts : list Part) :
  always_failing_transiently env -> always_transient (generateOp env parts).
Proof.
  intros Henv tr.
  destruct (Henv (remote_calls tr) (analysisRequest parts)) as (e & He & Hretry).
  exists e. split; [| exact Hretry].
  unfold generateOp, bind, remote. rewrite He. reflexivity.
Qed.

Lemma analyzeDocument_retried (context : DocumentContext) (level : ComprehensionLevel) :
  retried_up_to_budget (fun env => analyzeDocument env context level).
Proof.
  intros env Henv tr. unfold analyzeDocument, try_catch.
  set (op := generateOp env (analysis_parts context (analysis_prompt level))).
  destruct (retry_runs_whole_schedule op (generateOp_one_call env _)
              (generateOp_always_transient env _ Henv) 3%nat default_delay tr)
    as (e & tr_last & ext & Hrun & Hsteps & _).
  change (Z.of_nat 3) with default_retries in Hrun. rewrite Hrun.
  exists (ext ++ [EvError "Analysis failed"]). split.
  - unfold bind, emit, throw. simpl. rewrite app_assoc. reflexivity.
  - rewrite steps_app, Hsteps. apply app_nil_r.
Qed.

(** Unfolds a service function down to the backend's answer and the
    fields of the response it reads, then exhibits the trace suffix. *)
Ltac innermost_case :=
  match goal with
  | |- context [match ?x with _ => _ end] =>
      lazymatch x with
      | context [match _ with _ => _ end] => fail
      | _ => destruct x eqn:?; simpl
      end
  end.

Ltac one_attempt :=
  unfold try_catch, bind, remote, ret, throw, emit;
  repeat innermost_case;
  eexists; (split; [try rewrite <- app_assoc; reflexivity | reflexivity]).

Lemma sendChatMessage_single history newMessage context :
  single_attempt (fun env => sendChatMessage env history newMessage context).
Proof. intros env tr. unfold sendChatMessage. one_attempt. Qed.

Lemma searchRelatedTopics_single query :
  single_attempt (fun env => searchRelatedTopics env query).
Proof. intros env tr. unfold searchRelatedTopics. one_attempt. Qed.

Lemma generateSpeech_single text :
  single_attempt (fun env => generateSpeech env text).
Proof. intros env tr. unfold generateSpeech. one_attempt. Qed.

Lemma transcribeUserAudio_single audioBlob :
  single_attempt (fun env => transcribeUserAudio env audioBlob).
Proof. intros env tr. unfold transcribeUserAudio. one_attempt. Qed.

(** C3, as the code has it. Only the Analysis Service passes its remote
    call through the Retry Policy: against a backend that keeps failing
    transiently it runs the whole default schedule (four attempts,
    suspensions of 1000, 2000 and 4000 ms). The chat, search, speech
    synthesis and transcription functions issue their remote call once,
    with no suspension, whatever the backend answers. *)
Theorem only_analysis_is_retried
    (context : DocumentContext) (level : ComprehensionLevel)
    (history : list Content) (newMessage query text : string) (audioBlob : File) :
  retried_up_to_budget (fun env => analyzeDocument env context level)
  /\ single_attempt (fun env => sendChatMessage env history newMessage context)
  /\ single_attempt (fun env => searchRelatedTopics env query)
  /\ single_attempt (fun env => generateSpeech env text)
  /\ single_attempt (fun env => transcribeUserAudio env audioBlob).
Proof.
  split; [apply analyzeDocument_retried |].
  split; [apply sendChatMessage_single |].
  split; [apply searchRelatedTopics_single |].
  split; [apply generateSpeech_single | apply transcribeUserAudio_single].
Qed.

Example analyzeDocument_overloaded :
  steps (snd (analyzeDocument (Sample.failing Sample.overloaded)
                Sample.photosynthesis Undergraduate []))
  = [Attempt; Wait 1000; Attempt; Wait 2000; Attempt; Wait 4000; Attempt].
Proof. vm_compute. reflexivity. Qed.

Example generateSpeech_overloaded :
  steps (snd (generateSpeech (Sample.failing Sample.overloaded) "Hello." []))
  = [Attempt].
Proof. vm_compute. reflexivity. Qed.

Lemma overloaded_always_failing :
  always_failing_transiently (Sample.failing Sample.overloaded).
Proof. intros n req. exists Sample.overloaded. split; reflexivity. Qed.

(** C3 as stated fails: a search against a backend that answers 503 is
    not retried. *)
Lemma search_is_not_retried :
  ~ retried_up_to_budget (fun env => searchRelatedTopics env "perovskite solar cells").
Proof.
  intros Hretried.
  destruct (Hretried (Sample.failing Sample.overloaded) overloaded_always_failing [])
    as (ext & Hsnd & Hsteps).
  simpl in Hsnd. subst ext. discriminate Hsteps.
Qed.

(** ** JavaScript string facts *)

Lemma take_length (n : nat) (s : string) :
  String.length (Js.take n s) = Nat.min n (String.length s).
Proof.
  revert s. induction n as [| n IH]; intros [| c s]; simpl; auto.
Qed.

Lemma take_all (n : nat) (s : string) :
  (String.length s <= n)%nat -> Js.take n s = s.
Proof.
  revert s. induction n as [| n IH]; intros [| c s]; simpl; intros Hlen;
    try reflexivity; try lia.
  f_equal. apply IH. lia.
Qed.

Lemma take_min (n : nat) (s : string) :
  Js.take (Nat.min (String.length s) n) s = Js.take n s.
Proof.
  revert s. induction n as [| n IH]; intros [| c s]; simpl; try reflexivity.
  f_equal. apply IH.
Qed.

Lemma take_drop (n : nat) (s : string) : (Js.take n s ++ Js.drop n s)%string = s.
Proof.
  revert s. induction n as [| n IH]; intros [| c s]; try reflexivity.
  change (String c (Js.take n s ++ Js.drop n s)%string = String c s).
  f_equal. apply IH.
Qed.

(** [s.substring(0, n)] keeps the first [n] code units. *)
Lemma substring_from_0 (s : string) (n : Z) :
  (0 <= n)%Z -> Js.substring s 0 n = Js.take (Z.to_nat n) s.
Proof.
  intros Hn. unfold Js.substring, Js.clamp.
  set (len := Z.of_nat (String.length s)).
  assert (Hlen : (0 <= len)%Z) by (subst len; lia).
  replace (Z.max 0 (Z.min len 0)) with 0%Z by lia.
  replace (Z.min 0 (Z.max 0 (Z.min len n))) with 0%Z by lia.
  replace (Z.max 0 (Z.max 0 (Z.min len n)) - 0)%Z with (Z.min len n) by lia.
  change (Js.drop (Z.to_nat 0) s) with s.
  rewrite Z2Nat.inj_min. subst len. rewrite Nat2Z.id. apply take_min.
Qed.

(** ** The chat history *)

Lemma sendChatMessage_sends_once history newMessage context :
  sends_once (fun env => sendChatMessage env history newMessage context)
             (chatRequest history newMessage context).
Proof. intros env tr. unfold sendChatMessage. one_attempt. Qed.

Lemma contextMessage_text (content : string) :
  contextMessage (TextContext content)
  = {| role := Some user;
       parts := [TextPart (seed_header ++ Js.take (Z.to_nat 30000) content)] |}.
Proof.
  unfold contextMessage, seed_header.
  rewrite substring_from_0 by lia. reflexivity.
Qed.





Lemma curation_keeps_valid (history : list Content) :
  Forall (fun c => isValidContent c = true) history ->
  forall st,
    isValid st = true ->
    close_run (fold_left curation_step history st)
    = curatedHistory st ++ modelOutput st ++ history.
Proof.
  induction 1 as [| h history Hh Hrest IH]; intros st Hvalid; simpl.
  - unfold close_run. rewrite Hvalid, app_nil_r.
    destruct (modelOutput st); [symmetry; apply app_nil_r | reflexivity].
  - unfold curation_step at 2. destruct (is_user_turn h).
    + rewrite IH by reflexivity. simpl.
      assert (Hclose : close_run st = curatedHistory st ++ modelOutput st).
      { unfold close_run. rewrite Hvalid.
        destruct (modelOutput st); [symmetry; apply app_nil_r | reflexivity]. }
      rewrite Hclose, <- !app_assoc. reflexivity.
    + rewrite IH by (simpl; rewrite Hvalid, Hh; reflexivity). simpl.
      rewrite <- !app_assoc. reflexivity.
Qed.

(** A history of valid turns is sent as it is. *)
Lemma extractCuratedHistory_valid (history : list Content) :
  Forall (fun c => isValidContent c = true) history ->
  extractCuratedHistory history = history.
Proof.
  intros Hvalid. unfold extractCuratedHistory.
  rewrite (curation_keeps_valid history Hvalid) by reflexivity. reflexivity.
Qed.

Lemma well_formed_turn_valid (c : Content) :
  well_formed_turn c -> isValidContent c = true.
Proof.
  intros (_ & Hparts & _). unfold isValidContent.
  destruct (parts c); [congruence | reflexivity].
Qed.

Lemma contextMessage_valid (context : DocumentContext) :
  isValidContent (contextMessage context) = true.
Proof. destruct context; reflexivity. Qed.

Lemma fullHistory_transmitted (history : list Content) (newMessage : string)
    (context : DocumentContext) :
  Forall (fun c => isValidContent c = true) history ->
  transmitted (chatRequest history newMessage context)
  = contextMessage context :: acknowledgment :: history ++ [user_turn newMessage].
Proof.
  intros Hvalid. unfold chatRequest, transmitted, fullHistory.
  rewrite extractCuratedHistory_valid; [reflexivity |].
  constructor; [apply contextMessage_valid |].
  constructor; [reflexivity | exact Hvalid].
Qed.

(** C4, as the code has it. The chat is created with the history
    seed turn, acknowledgment, caller-supplied history, and the new
    message is sent through it. For a caller-supplied history whose
    turns each have a role, at least one part and no empty text, the
    sequence transmitted is: a user-role seed turn carrying the document
    in the chat's own framing (for a PDF the sentence "Here is the
    research paper to reference:" and the inline file; for a URL one
    sentence naming it; for text a header and the first 30000 code
    units), then the model-role turn "I have read the paper. How can I
    help you?", then the whole caller-supplied history, then the new
    message as a user turn: 3 + the history's length turns, so 3 for an
    empty history. *)
Theorem chat_history_is_seeded (env : Env) (history : list Content)
    (newMessage : string) (context : DocumentContext) (tr : Trace) :
  Forall well_formed_turn history ->
  (exists ext,
      snd (sendChatMessage env history newMessage context tr)
      = tr ++ EvRemote (chatRequest history newMessage context) :: ext
      /\ steps ext = [])
  /\ chatRequest history newMessage context
     = ChatSendMessage "gemini-3-pro-preview" systemInstruction
         (contextMessage context :: acknowledgment :: history) newMessage
  /\ transmitted (chatRequest history newMessage context)
     = contextMessage context :: acknowledgment :: history ++ [user_turn newMessage]
  /\ length (transmitted (chatRequest history newMessage context))
     = (3 + length history)%nat
  /\ transmitted (chatRequest [] newMessage context)
     = [contextMessage context; acknowledgment; user_turn newMessage]
  /\ role (contextMessage context) = Some user
  /\ acknowledgment
     = {| role := Some model;
          parts := [TextPart "I have read the paper. How can I help you?"] |}
  /\ parts (contextMessage context)
     = match context with
       | PdfContext content =>
           [TextPart "Here is the research paper to reference:";
            InlineData "application/pdf" content]
       | UrlContext content =>
           [TextPart ("Here is the URL of the research paper to reference: " ++ content)]
       | TextContext content =>
           [TextPart (seed_header ++ Js.take (Z.to_nat 30000) content)]
       end.
Proof.
  intros Hwf.
  assert (Hvalid : Forall (fun c => isValidContent c = true) history).
  { eapply Forall_impl; [exact Hwf | apply well_formed_turn_valid]. }
  split; [apply sendChatMessage_sends_once |].
  split; [reflexivity |].
  split; [apply fullHistory_transmitted, Hvalid |].
  split.
  { rewrite (fullHistory_transmitted history newMessage context Hvalid).
    simpl. rewrite length_app. simpl. lia. }
  split; [apply fullHistory_transmitted; constructor |].
  split; [destruct context; reflexivity |].
  split; [reflexivity |].
  destruct context as [content | content | content]; try reflexivity.
  rewrite contextMessage_text. reflexivity.
Qed.

Lemma greeting_turn_well_formed :
  Forall well_formed_turn [ChatView.turn_of ChatView.greeting].
Proof.
  constructor; [| constructor].
  split; [discriminate |]. split; [discriminate | reflexivity].
Qed.

Lemma chat_history_is_seeded_witness :
  length (transmitted (chatRequest [ChatView.turn_of ChatView.greeting]
                         Sample.question Sample.photosynthesis))
  = 4%nat.
Proof.
  destruct (chat_history_is_seeded (Sample.replying Sample.answer)
              [ChatView.turn_of ChatView.greeting] Sample.question
              Sample.photosynthesis [] greeting_turn_well_formed)
    as (_ & _ & _ & Hlen & _).
  exact Hlen.
Defined.

(** The curated history at work: a model turn without parts takes the
    model turns around it and the user turn before them off the wire. *)
Example partless_model_turn_drops_seed :
  transmitted (chatRequest [ {| role := Some model; parts := [] |} ]
                 Sample.question Sample.photosynthesis)
  = [user_turn Sample.question].
Proof. reflexivity. Qed.

(** C4 as stated fails: with an empty history three turns are
    transmitted, not four, and the seed turn does not frame the text the
    way the analysis request does. *)
Lemma chat_empty_history_sends_three :
  snd (sendChatMessage (Sample.replying Sample.answer) [] Sample.question
         Sample.photosynthesis [])
  = [EvRemote (chatRequest [] Sample.question Sample.photosynthesis)]
  /\ length (transmitted (chatRequest [] Sample.question Sample.photosynthesis)) = 3%nat
  /\ length (transmitted (chatRequest [] Sample.question Sample.photosynthesis)) <> 4%nat
  /\ parts (contextMessage Sample.photosynthesis)
     <> take 1 (analysis_parts Sample.photosynthesis (analysis_prompt Undergraduate)).
Proof.
  split; [reflexivity |]. split; [reflexivity |].
  split; [discriminate |]. vm_compute. discriminate.
Qed.

(** ** Search *)

Lemma push_web_sources (chunks : list Chunk) (acc : list GroundingSource) :
  fold_left
    (fun sources chunk =>
       match web chunk with
       | Some w => sources ++ [{| source_title := title w; source_uri := uri w |}]
       | None => sources
       end)
    chunks acc
  = acc ++ List.map source_of_web (omap web chunks).
Proof.
  revert acc. induction chunks as [| chunk chunks IH]; intros acc; simpl.
  - symmetry. apply app_nil_r.
  - rewrite IH. destruct (web chunk) as [w |]; simpl; [| reflexivity].
    rewrite <- app_assoc. reflexivity.
Qed.

Lemma extractSources_spec (chunks : option (list Chunk)) :
  extractSources chunks = List.map source_of_web (omap web (default [] chunks)).
Proof.
  destruct chunks as [chunks |]; [| reflexivity].
  unfold extractSources. rewrite push_web_sources. reflexivity.
Qed.

Lemma sources_agree_when_complete (chunks : list Chunk) :
  Forall (fun w => is_Some (title w) /\ is_Some (uri w)) (omap web chunks) ->
  List.map source_of_web (omap web chunks) = sources_with_title_and_uri chunks.
Proof.
  induction chunks as [| chunk chunks IH]; simpl; [reflexivity |].
  destruct (web chunk) as [[t u] |]; simpl; [| exact IH].
  intros Hall. apply Forall_cons in Hall as [Hw Hall].
  simpl in Hw. destruct Hw as [[t' ->] [u' ->]].
  simpl. f_equal. apply IH, Hall.
Qed.

(** What the extraction loop computes on a successful response: in the
    backend's order, one entry per grounding chunk that carries a web
    record, built from that record's title and URI; chunks without a
    web record are dropped. When every web record carries both a title
    and a URI this is the list of the entries that carry both. *)
Theorem search_sources_follow_web_records (env : Env) (query : string) (tr : Trace)
    (r : Response) :
  backend env (remote_calls tr) (searchRequest query) = Ok r ->
  searchRelatedTopics env query tr
  = (Ok {| search_text := Js.or_else (response_text r) "No results found.";
           sources := List.map source_of_web (omap web (default [] (groundingChunks r))) |},
     tr ++ [EvRemote (searchRequest query)])
  /\ (Forall (fun w => is_Some (title w) /\ is_Some (uri w))
             (omap web (default [] (groundingChunks r))) ->
      List.map source_of_web (omap web (default [] (groundingChunks r)))
      = sources_with_title_and_uri (default [] (groundingChunks r))).
Proof.
  intros Hok. split; [| apply sources_agree_when_complete].
  unfold searchRelatedTopics, try_catch, bind, remote, ret.
  rewrite Hok, extractSources_spec. reflexivity.
Qed.

Lemma search_sources_follow_web_records_witness :
  fst (searchRelatedTopics (Sample.replying Sample.grounded) "enzymes" [])
  = Ok {| search_text := "Two recent results.";
          sources := [source_of_web Sample.untitled; source_of_web Sample.titled] |}.
Proof.
  exact (f_equal fst
           (proj1 (search_sources_follow_web_records
                     (Sample.replying Sample.grounded) "enzymes" [] Sample.grounded
                     eq_refl))).
Defined.

(** C5. The code at a response whose first web record has a URI but
    no title: the entry is returned, with its title missing, where the
    contract has it dropped and the GroundingSource type (title: string;
    uri: string) has no such value. The loop tests only [chunk.web]. *)
Lemma search_keeps_untitled_source :
  fst (searchRelatedTopics (Sample.replying Sample.grounded) "enzymes" [])
  = Ok {| search_text := "Two recent results.";
          sources := [ {| source_title := None;
                          source_uri := Some "https://example.org/preprint" |};
                       {| source_title := Some "Nature";
                          source_uri := Some "https://www.nature.com/articles/x" |} ] |}
  /\ extractSources (groundingChunks Sample.grounded)
     <> sources_with_title_and_uri (default [] (groundingChunks Sample.grounded)).
Proof. split; [reflexivity | discriminate]. Qed.

(** C6. When the remote call of a search fails, for whatever reason,
    the search returns the degraded result
    {text: "Search currently unavailable.", sources: []}; and no search
    ever raises an error to its caller. *)
Theorem search_failure_degrades (env : Env) (query : string) (tr : Trace) (e : JsError) :
  backend env (remote_calls tr) (searchRequest query) = Throw e ->
  searchRelatedTopics env query tr
  = (Ok {| search_text := "Search currently unavailable."; sources := [] |},
     tr ++ [EvRemote (searchRequest query); EvError "Search failed"])
  /\ (forall env' query' tr', exists result,
        fst (searchRelatedTopics env' query' tr') = Ok result).
Proof.
  intros Hfail. split.
  - unfold searchRelatedTopics, try_catch, bind, remote, emit, ret.
    rewrite Hfail. simpl. rewrite <- app_assoc. reflexivity.
  - intros env' query' tr'.
    unfold searchRelatedTopics, try_catch, bind, remote, emit, ret.
    destruct (backend env' (remote_calls tr') (searchRequest query')); simpl;
      eexists; reflexivity.
Qed.

Lemma search_failure_degrades_witness :
  fst (searchRelatedTopics (Sample.failing Sample.no_response) "enzymes" [])
  = Ok unavailable.
Proof.
  exact (f_equal fst
           (proj1 (search_failure_degrades
                     (Sample.failing Sample.no_response) "enzymes" []
                     Sample.no_response eq_refl))).
Defined.

(** ** Speech synthesis *)

Lemma generateSpeech_sends_once (text : string) :
  sends_once (fun env => generateSpeech env text) (speechRequest text).
Proof. intros env tr. unfold generateSpeech. one_attempt. Qed.

(** C8. Whatever the input, the text a synthesis request carries is
    the first 400 code units of the input, never more; what lies beyond
    is cut off before transmission. *)
Theorem speech_input_is_truncated (env : Env) (text : string) (tr : Trace) :
  (exists ext,
      snd (generateSpeech env text tr) = tr ++ EvRemote (speechRequest text) :: ext
      /\ steps ext = [])
  /\ exists sent,
      transmitted (speechRequest text) = [{| role := None; parts := [TextPart sent] |}]
      /\ sent = Js.take 400 text
      /\ (String.length sent <= 400)%nat
      /\ text = (sent ++ Js.drop 400 text)%string
      /\ ((String.length text <= 400)%nat -> sent = text).
Proof.
  split; [apply generateSpeech_sends_once |].
  exists (Js.take 400 text).
  split.
  { unfold speechRequest, transmitted.
    rewrite (substring_from_0 text 400) by lia. reflexivity. }
  split; [reflexivity |].
  split; [rewrite take_length; lia |].
  split; [symmetry; apply take_drop |].
  apply take_all.
Qed.

(** ** PCM decoding *)

Section Fill.

Variable f : nat -> Q.

Lemma fill_S (n : nat) (ch : list Q) : fill f (S n) ch = <[n := f n]> (fill f n ch).
Proof. unfold fill. rewrite seq_S, fold_left_app. reflexivity. Qed.

Lemma fill_length (n : nat) (ch : list Q) : length (fill f n ch) = length ch.
Proof.
  induction n as [| n IH]; [reflexivity |].
  rewrite fill_S, length_insert. exact IH.
Qed.

Lemma fill_lookup (n : nat) (ch : list Q) (j : nat) :
  (j < n)%nat -> (j < length ch)%nat -> fill f n ch !! j = Some (f j).
Proof.
  induction n as [| n IH]; intros Hj Hlen; [lia |].
  rewrite fill_S. destruct (decide (j = n)) as [-> | Hne].
  - apply list_lookup_insert_eq. rewrite fill_length. exact Hlen.
  - rewrite list_lookup_insert_ne by congruence. apply IH; lia.
Qed.

End Fill.

Lemma fill_whole (data : list Z) (g : Z -> Q) :
  fill (fun i => g (nth i data 0%Z)) (length data) (replicate (length data) 0%Q)
  = List.map g data.
Proof.
  apply list_eq. intros j.
  destruct (decide (j < length data)%nat) as [Hlt | Hge].
  - rewrite fill_lookup by (rewrite ?length_replicate; lia).
    change (List.map g data) with (g <$> data). rewrite list_lookup_fmap.
    destruct (data !! j) as [s |] eqn:Hs.
    + simpl. f_equal. f_equal. apply nth_lookup_Some with (d := 0%Z) in Hs. exact Hs.
    + apply lookup_ge_None in Hs. lia.
  - rewrite !lookup_ge_None_2; [reflexivity | |].
    + rewrite length_map. lia.
    + rewrite fill_length, length_replicate. lia.
Qed.

Lemma int16_le_range (lo hi : byte) : (-32768 <= int16_le lo hi <= 32767)%Z.
Proof.
  unfold int16_le.
  set (u := Z.lor _ _).
  pose proof (Z.mod_pos_bound (u + 32768) 65536 ltac:(lia)). lia.
Qed.

Lemma int16_view_range (bs : list byte) :
  Forall (fun s => (-32768 <= s <= 32767)%Z) (int16_view bs).
Proof.
  assert (H : forall n bs, (length bs <= n)%nat ->
                Forall (fun s => (-32768 <= s <= 32767)%Z) (int16_view bs)).
  { intros n. induction n as [| n IH]; intros [| lo [| hi rest]] Hlen; simpl;
      try constructor; simpl in Hlen; try lia.
    - apply int16_le_range.
    - apply IH. lia. }
  apply (H (length bs)). lia.
Qed.

Lemma int16_view_length (bs : list byte) :
  Nat.even (length bs) = true -> (2 * length (int16_view bs))%nat = length bs.
Proof.
  assert (H : forall n bs, (length bs <= n)%nat -> Nat.even (length bs) = true ->
                (2 * length (int16_view bs))%nat = length bs).
  { intros n. induction n as [| n IH]; intros [| lo [| hi rest]] Hlen Heven; simpl in *;
      try reflexivity; try discriminate; try lia.
    rewrite <- (IH rest) by (try lia; exact Heven). lia. }
  apply (H (length bs)). lia.
Qed.

Lemma rescaled_in_range (s : Z) :
  (-32768 <= s <= 32767)%Z -> (-1 <= inject_Z s / 32768 <= 1)%Q.
Proof.
  intros Hs. unfold Qle, Qdiv, Qmult, Qinv, inject_Z. simpl. lia.
Qed.

(** C9. A buffer of n > 0 signed 16-bit little-endian samples decodes
    into n frames, frame i holding sample i divided by 32768; every
    frame lies in [-1, 1]; the samples 0, -32768 and 32767 become 0, -1
    and 32767/32768 (0.999969 to six decimals). *)
Theorem pcm_samples_are_rescaled (rawBuffer : list byte) (rate : Z) :
  rawBuffer <> [] ->
  Nat.even (length rawBuffer) = true ->
  (exists audio,
      createAudioBufferFromPCM rawBuffer rate = Ok audio
      /\ numberOfChannels audio = 1%nat
      /\ sampleRate audio = rate
      /\ (2 * frames audio)%nat = length rawBuffer
      /\ channelData audio
         = List.map (fun s => (inject_Z s / 32768)%Q) (int16_view rawBuffer)
      /\ Forall (fun x => (-1 <= x <= 1)%Q) (channelData audio))
  /\ (exists audio,
      createAudioBufferFromPCM [x00; x00; x00; x80; xff; x7f] default_sampleRate = Ok audio
      /\ int16_view [x00; x00; x00; x80; xff; x7f] = [0; -32768; 32767]%Z
      /\ channelData audio = [0 # 32768; -32768 # 32768; 32767 # 32768]%Q
      /\ (0 # 32768 == 0)%Q
      /\ (-32768 # 32768 == -1)%Q
      /\ (999969 # 1000000 <= 32767 # 32768 < 999970 # 1000000)%Q).
Proof.
  intros Hne Heven. split.
  - unfold createAudioBufferFromPCM, new_Int16Array, createBuffer.
    rewrite Heven.
    pose proof (int16_view_length rawBuffer Heven) as Hlen.
    destruct (Nat.eqb_spec (length (int16_view rawBuffer)) 0) as [H0 | Hpos].
    { rewrite H0 in Hlen. destruct rawBuffer; [congruence | discriminate Hlen]. }
    eexists. split; [reflexivity |]. simpl.
    split; [reflexivity |]. split; [reflexivity |]. split; [exact Hlen |].
    rewrite (fill_whole (int16_view rawBuffer) (fun s => (inject_Z s / 32768)%Q)).
    split; [reflexivity |].
    apply Forall_map. eapply Forall_impl; [apply int16_view_range |].
    intros s Hs. apply rescaled_in_range, Hs.
  - eexists. split; [reflexivity |]. simpl.
    split; [reflexivity |]. split; [reflexivity |].
    split; [reflexivity |]. split; [reflexivity |].
    split; [unfold Qle | unfold Qlt]; simpl; lia.
Qed.

Lemma pcm_samples_are_rescaled_witness :
  exists audio,
    createAudioBufferFromPCM [x00; x40; x00; xc0] default_sampleRate = Ok audio
    /\ channelData audio
       = List.map (fun s => (inject_Z s / 32768)%Q) (int16_view [x00; x40; x00; xc0])
    /\ Forall (fun x => (-1 <= x <= 1)%Q) (channelData audio).
Proof.
  destruct (pcm_samples_are_rescaled [x00; x40; x00; xc0] default_sampleRate
              ltac:(discriminate) eq_refl)
    as [(audio & Hrun & _ & _ & _ & Hdata & Hrange) _].
  exists audio. repeat split; [exact Hrun | exact Hdata | exact Hrange].
Defined.

(** ** Building the document context *)

Lemma append_assoc (a b c : string) : ((a ++ b) ++ c = a ++ (b ++ c))%string.
Proof.
  induction a as [| x a IH]; [reflexivity |].
  change (String x ((a ++ b) ++ c) = String x (a ++ (b ++ c)))%string.
  f_equal. exact IH.
Qed.

Lemma occurs_app (c : ascii) (a b : string) :
  occurs c (a ++ b)%string = occurs c a || occurs c b.
Proof.
  induction a as [| x a IH]; [reflexivity |].
  change (occurs c (String x (a ++ b)%string) = occurs c (String x a) || occurs c b).
  simpl. rewrite IH. apply orb_assoc.
Qed.

Lemma includes_char (s : string) (c : ascii) :
  Js.includes s (String c EmptyString) = occurs c s.
Proof.
  induction s as [| d s IH]; [reflexivity |].
  cbn [Js.includes occurs String.prefix]. rewrite IH.
  destruct (ascii_dec c d) as [-> | Hne].
  - rewrite Ascii.eqb_refl. destruct s; reflexivity.
  - apply Ascii.eqb_neq in Hne. rewrite Hne. reflexivity.
Qed.

Lemma all_chars_occurs (P : ascii -> bool) (c : ascii) (s : string) :
  all_chars P s = true -> P c = false -> occurs c s = false.
Proof.
  intros Hall Hc. induction s as [| d s IH]; [reflexivity |].
  simpl in *. apply andb_true_iff in Hall as [Hd Hall].
  rewrite (IH Hall), orb_false_r.
  apply Ascii.eqb_neq. intros ->. congruence.
Qed.

Lemma split_none (sep : ascii) (s : string) :
  occurs sep s = false -> Js.split sep s = [s].
Proof.
  induction s as [| c s IH]; [reflexivity |].
  simpl. intros Hocc. apply orb_false_iff in Hocc as [Hc Hs].
  rewrite Ascii.eqb_sym, Hc, (IH Hs). reflexivity.
Qed.

Lemma split_first (sep : ascii) (a b : string) :
  occurs sep a = false ->
  Js.split sep (a ++ String sep b) = a :: Js.split sep b.
Proof.
  induction a as [| c a IH]; intros Hocc.
  - change (Js.split sep (String sep b) = "" :: Js.split sep b).
    simpl. rewrite Ascii.eqb_refl. reflexivity.
  - change (Js.split sep (String c (a ++ String sep b)) = String c a :: Js.split sep b).
    simpl in *. apply orb_false_iff in Hocc as [Hc Ha].
    rewrite Ascii.eqb_sym, Hc, (IH Ha). reflexivity.
Qed.

Lemma data_prefix_has_colon (s : string) :
  String.prefix "data:" s = true -> occurs ":" s = true.
Proof.
  destruct s as [| c1 [| c2 [| c3 [| c4 [| c5 s]]]]]; cbn [String.prefix];
    repeat (destruct (ascii_dec _ _) as [<- | ?]); try discriminate.
  intros _. reflexivity.
Qed.

Lemma no_colon_no_data (s : string) :
  occurs ":" s = false -> Js.includes s "data:" = false.
Proof.
  induction s as [| c s IH]; intros Hocc; [reflexivity |].
  cbn [Js.includes]. apply orb_false_iff. split.
  - destruct (String.prefix "data:" (String c s)) eqn:Hp; [| reflexivity].
    apply data_prefix_has_colon in Hp. congruence.
  - apply IH. simpl in Hocc. apply orb_false_iff in Hocc. tauto.
Qed.

Lemma base64_digit_ok (n : N) : is_base64_char (base64_digit n) = true.
Proof.
  unfold base64_digit. generalize (N.to_nat n) as k. intros k.
  do 64 (destruct k as [| k]; [reflexivity |]).
  reflexivity.
Qed.

Lemma base64_encode_chars (bs : list byte) :
  all_chars is_base64_char (base64_encode bs) = true.
Proof.
  assert (H : forall n bs, (length bs <= n)%nat ->
                all_chars is_base64_char (base64_encode bs) = true).
  { intros n. induction n as [| n IH]; intros [| a [| b [| c rest]]] Hlen;
      cbn [base64_encode all_chars]; rewrite ?base64_digit_ok;
      try reflexivity; simpl in Hlen; try lia.
    apply IH. lia. }
  apply (H (length bs)). lia.
Qed.

Lemma fileToGenerativePart_payload (file : File) (tr : Trace) :
  occurs "," (file_type file) = false ->
  fileToGenerativePart file tr = (Ok (Some (base64_encode (file_bytes file))), tr).
Proof.
  intros Htype. unfold fileToGenerativePart, ret, readAsDataURL.
  replace ("data:" ++ file_type file ++ ";base64," ++ base64_encode (file_bytes file))%string
    with (("data:" ++ file_type file ++ ";base64")
          ++ String "," (base64_encode (file_bytes file)))%string.
  - rewrite split_first.
    + rewrite split_none; [reflexivity |].
      apply (all_chars_occurs is_base64_char); [apply base64_encode_chars | reflexivity].
    + rewrite !occurs_app, Htype. reflexivity.
  - rewrite !append_assoc. reflexivity.
Qed.

(** C7. With the discriminator [pdf] and a payload that is not a file
    the construction fails with the error "Invalid input", and handling
    the submission makes no remote call. With a file payload it
    succeeds: the content is the base64 encoding of the file's bytes,
    that is the data URL without its "data:...;base64," prefix. *)
Theorem pdf_context_construction (env : Env) (s : string) (file : File)
    (level : ComprehensionLevel) (tr : Trace) :
  Js.includes (file_type file) "," = false ->
  buildContext pdf (StringPayload s) tr = (Throw (new_Error "Invalid input"), tr)
  /\ handleAnalyze env pdf (StringPayload s) level tr
     = (Ok tt, tr ++ [EvError "Invalid input"; EvAlert "Analysis failed. Please try again."])
  /\ remote_calls (snd (handleAnalyze env pdf (StringPayload s) level tr)) = remote_calls tr
  /\ exists base64Data,
      buildContext pdf (FilePayload file) tr = (Ok (PdfContext (Some base64Data)), tr)
      /\ base64Data = base64_encode (file_bytes file)
      /\ readAsDataURL file = ("data:" ++ file_type file ++ ";base64," ++ base64Data)%string
      /\ String.prefix "data:" base64Data = false
      /\ Js.includes base64Data "data:" = false
      /\ all_chars is_base64_char base64Data = true.
Proof.
  intros Htype. rewrite includes_char in Htype.
  assert (Hrun : handleAnalyze env pdf (StringPayload s) level tr
                 = (Ok tt, tr ++ [EvError "Invalid input";
                                  EvAlert "Analysis failed. Please try again."])).
  { unfold handleAnalyze, try_catch, bind, buildContext, throw, emit. simpl.
    rewrite <- app_assoc. reflexivity. }
  split; [reflexivity |]. split; [exact Hrun |].
  split.
  { rewrite Hrun. simpl. rewrite remote_calls_app. unfold remote_calls at 2. simpl. lia. }
  exists (base64_encode (file_bytes file)).
  assert (Hcolon : occurs ":" (base64_encode (file_bytes file)) = false).
  { apply (all_chars_occurs is_base64_char); [apply base64_encode_chars | reflexivity]. }
  split.
  { unfold buildContext, bind. rewrite fileToGenerativePart_payload by exact Htype.
    reflexivity. }
  split; [reflexivity |]. split; [reflexivity |].
  split.
  { destruct (String.prefix "data:" (base64_encode (file_bytes file))) eqn:Hp;
      [| reflexivity].
    apply data_prefix_has_colon in Hp. congruence. }
  split; [apply no_colon_no_data, Hcolon | apply base64_encode_chars].
Qed.

Lemma pdf_context_construction_witness :
  buildContext pdf (FilePayload Sample.paper) []
  = (Ok (PdfContext (Some "JVBERi0=")), []).
Proof.
  destruct (pdf_context_construction (Sample.failing Sample.overloaded) "pasted text"
              Sample.paper Undergraduate [] eq_refl)
    as (_ & _ & _ & base64Data & Hrun & Heq & _).
  rewrite Hrun, Heq. reflexivity.
Defined.

(** ** More on the retry helper and the analysis request *)

Lemma remote_calls_snoc_remote (tr : Trace) (req : Request) :
  remote_calls (tr ++ [EvRemote req]) = S (remote_calls tr).
Proof. rewrite remote_calls_app. unfold remote_calls at 2. simpl. lia. Qed.

Lemma remote_calls_snoc_pause (tr : Trace) (r d : Z) :
  remote_calls (tr ++ [EvWarn r; EvSleep d]) = remote_calls tr.
Proof. rewrite remote_calls_app. unfold remote_calls at 2. simpl. lia. Qed.

Lemma retry_until_settled {T} (op : M T) (out : nat -> Res T) :
  one_remote_call op ->
  outcome_by_index op out ->
  forall (k : nat) (retries delay : Z) (tr : Trace),
    (Z.of_nat k <= retries)%Z ->
    (forall i, (i < k)%nat -> transient_outcome (out (remote_calls tr + i)%nat)) ->
    settled (out (remote_calls tr + k)%nat) ->
    exists ext,
      retryOperation op retries delay tr = (out (remote_calls tr + k)%nat, tr ++ ext)
      /\ steps ext = backoff_schedule k delay.
Proof.
  intros Hone Hout.
  induction k as [| k IH]; intros retries delay tr Hk Hfail Hlast.
  - destruct (Hone tr) as [req Hreq]. specialize (Hout tr).
    rewrite Nat.add_0_r in *. rewrite retryOperation_eq.
    destruct (op tr) as [r tr1]; simpl in Hreq, Hout; subst r tr1.
    exists [EvRemote req]. split; [| reflexivity].
    destruct (out (remote_calls tr)) as [v | e]; [reflexivity |].
    simpl in Hlast. rewrite Hlast. destruct (retries <=? 0)%Z; reflexivity.
  - destruct (Hone tr) as [req Hreq]. pose proof (Hout tr) as Hfst.
    destruct (Hfail 0%nat ltac:(lia)) as (e & He & Hretry).
    rewrite Nat.add_0_r in He.
    rewrite retryOperation_eq.
    destruct (op tr) as [r tr1]; simpl in Hreq, Hfst; subst r tr1.
    rewrite He, Hretry.
    assert (Hf : (retries <=? 0)%Z = false) by (apply Z.leb_gt; lia).
    rewrite Hf.
    set (tr' := (tr ++ [EvRemote req]) ++ [EvWarn retries; EvSleep delay]).
    assert (Hcalls : remote_calls tr' = S (remote_calls tr)).
    { unfold tr'. rewrite remote_calls_snoc_pause. apply remote_calls_snoc_remote. }
    destruct (IH (retries - 1)%Z (delay * 2)%Z tr') as (ext & Hrun & Hsteps).
    + lia.
    + intros i Hi. rewrite Hcalls.
      replace (S (remote_calls tr) + i)%nat with (remote_calls tr + S i)%nat by lia.
      apply Hfail. lia.
    + rewrite Hcalls.
      replace (S (remote_calls tr) + k)%nat with (remote_calls tr + S k)%nat by lia.
      exact Hlast.
    + exists ([EvRemote req] ++ [EvWarn retries; EvSleep delay] ++ ext).
      rewrite Hrun, Hcalls.
      replace (S (remote_calls tr) + k)%nat with (remote_calls tr + S k)%nat by lia.
      split.
      * unfold tr'. rewrite <- !app_assoc. reflexivity.
      * rewrite !steps_app, Hsteps. reflexivity.
Qed.

(** X1. The helper returns the outcome of the first attempt that is not
    a transient failure: after k transient failures (k within the
    budget) followed by a success or a terminal failure, it has made
    k + 1 attempts, suspended k times with doubling delays, and hands
    that outcome back. *)
Theorem retry_returns_first_settled {T} (op : M T) (out : nat -> Res T)
    (k : nat) (retries delay : Z) (tr : Trace) :
  one_remote_call op ->
  outcome_by_index op out ->
  (Z.of_nat k <= retries)%Z ->
  (forall i, (i < k)%nat -> transient_outcome (out (remote_calls tr + i)%nat)) ->
  settled (out (remote_calls tr + k)%nat) ->
  exists ext,
    retryOperation op retries delay tr = (out (remote_calls tr + k)%nat, tr ++ ext)
    /\ steps ext = backoff_schedule k delay
    /\ remote_calls ext = S k
    /\ sleeps ext = List.map (fun i => (delay * 2 ^ Z.of_nat i)%Z) (seq 0 k).
Proof.
  intros Hone Hout Hk Hfail Hlast.
  destruct (retry_until_settled op out Hone Hout k retries delay tr Hk Hfail Hlast)
    as (ext & Hrun & Hsteps).
  exists ext. repeat split; auto.
  - rewrite remote_calls_steps, Hsteps. apply attempts_backoff.
  - rewrite sleeps_steps, Hsteps. apply waits_backoff.
Qed.

Lemma generateOp_outcome (env : Env) (parts : list Part) :
  outcome_by_index (generateOp env parts)
    (fun n => analysis_outcome env (backend env n (analysisRequest parts))).
Proof.
  intros tr. unfold generateOp, bind, remote, throw, analysis_outcome.
  destruct (backend env (remote_calls tr) (analysisRequest parts)) as [r | e];
    [| reflexivity].
  simpl. destruct (response_text r) as [t |]; [| reflexivity].
  unfold Js.truthy. destruct (negb (t =? ""))%string; reflexivity.
Qed.

Lemma retry_returns_first_settled_witness :
  exists ext,
    retryOperation (generateOp Sample.flaky []) 3 1000 []
    = (Ok Sample.findings, ext)
    /\ steps ext = [Attempt; Wait 1000; Attempt; Wait 2000; Attempt].
Proof.
  destruct (retry_returns_first_settled
              (generateOp Sample.flaky [])
              (fun n => analysis_outcome Sample.flaky
                          (backend Sample.flaky n (analysisRequest [])))
              2 3 1000 []
              (generateOp_one_call _ _) (generateOp_outcome _ _) ltac:(lia))
    as (ext & Hrun & Hsteps & _).
  - intros i Hi. exists Sample.overloaded.
    destruct i as [| [| i]]; [split; reflexivity | split; reflexivity | lia].
  - exact I.
  - exists ext. split; [exact Hrun | exact Hsteps].
Defined.

Lemma analyzeDocument_of_retry (env : Env) (context : DocumentContext)
    (level : ComprehensionLevel) (tr : Trace) :
  analyzeDocument env context level tr
  = match retryOperation
            (generateOp env (analysis_parts context (analysis_prompt level)))
            default_retries default_delay tr with
    | (Ok v, tr1) => (Ok v, tr1)
    | (Throw e, tr1) => (Throw e, tr1 ++ [EvError "Analysis failed"])
    end.
Proof.
  unfold analyzeDocument, try_catch.
  destruct (retryOperation _ _ _ tr) as [[v | e] tr1]; reflexivity.
Qed.

Lemma steps_snoc_error (ext : Trace) (label : string) :
  steps (ext ++ [EvError label]) = steps ext.
Proof. rewrite steps_app. apply app_nil_r. Qed.

(** X2. An analysis recovers from transient failures: when the first k
    answers (k <= 3) are transient failures and the next is a non-empty
    text the parser accepts, the parsed result is returned after k + 1
    requests and k suspensions of 1000, 2000, ... ms. *)
Theorem analyzeDocument_recovers (env : Env) (context : DocumentContext)
    (level : ComprehensionLevel) (k : nat) (tr : Trace)
    (r : Response) (t : string) (result : AnalysisResult) :
  (k <= 3)%nat ->
  (forall i, (i < k)%nat ->
     exists e,
       backend env (remote_calls tr + i)%nat
         (analysisRequest (analysis_parts context (analysis_prompt level))) = Throw e
       /\ isRetryable e = true) ->
  backend env (remote_calls tr + k)%nat
    (analysisRequest (analysis_parts context (analysis_prompt level))) = Ok r ->
  response_text r = Some t ->
  t <> ""%string ->
  JSON_parse env t = Ok result ->
  exists ext,
    analyzeDocument env context level tr = (Ok result, tr ++ ext)
    /\ steps ext = backoff_schedule k 1000
    /\ remote_calls ext = S k
    /\ sleeps ext = List.map (fun i => (1000 * 2 ^ Z.of_nat i)%Z) (seq 0 k).
Proof.
  intros Hk Hfail Hok Htext Hne Hparse.
  set (parts := analysis_parts context (analysis_prompt level)) in *.
  assert (Hlast : analysis_outcome env (backend env (remote_calls tr + k)%nat
                                          (analysisRequest parts)) = Ok result).
  { rewrite Hok. unfold analysis_outcome. rewrite Htext. unfold Js.truthy.
    apply String.eqb_neq in Hne. rewrite Hne. exact Hparse. }
  destruct (retry_until_settled (generateOp env parts)
              (fun n => analysis_outcome env (backend env n (analysisRequest parts)))
              (generateOp_one_call env parts) (generateOp_outcome env parts)
              k default_retries default_delay tr)
    as (ext & Hrun & Hsteps).
  - unfold default_retries. lia.
  - intros i Hi. destruct (Hfail i Hi) as (e & He & Hretry).
    exists e. rewrite He. split; [reflexivity | exact Hretry].
  - rewrite Hlast. exact I.
  - exists ext. rewrite analyzeDocument_of_retry. fold parts.
    rewrite Hrun, Hlast. repeat split; [exact Hsteps | |].
    + rewrite remote_calls_steps, Hsteps. apply attempts_backoff.
    + rewrite sleeps_steps, Hsteps. apply waits_backoff.
Qed.

Lemma analyzeDocument_recovers_witness :
  exists ext,
    analyzeDocument Sample.flaky Sample.photosynthesis Undergraduate []
    = (Ok Sample.findings, ext)
    /\ steps ext = [Attempt; Wait 1000; Attempt; Wait 2000; Attempt].
Proof.
  destruct (analyzeDocument_recovers Sample.flaky Sample.photosynthesis Undergraduate
              2 [] Sample.structured "{...}" Sample.findings ltac:(lia))
    as (ext & Hrun & Hsteps & _).
  - intros i Hi. exists Sample.overloaded.
    destruct i as [| [| i]]; [split; reflexivity | split; reflexivity | lia].
  - reflexivity.
  - reflexivity.
  - discriminate.
  - reflexivity.
  - exists ext. split; [exact Hrun | exact Hsteps].
Defined.

Lemma retry_settled_at_once {T} (op : M T) (retries delay : Z) (tr tr1 : Trace)
    (r : Res T) :
  op tr = (r, tr1) -> settled r -> retryOperation op retries delay tr = (r, tr1).
Proof.
  intros Hop Hsettled. rewrite retryOperation_eq, Hop.
  destruct r as [v | e]; [reflexivity |].
  simpl in Hsettled. rewrite Hsettled. destruct (retries <=? 0)%Z; reflexivity.
Qed.

(** X3. An answer without usable text is not retried: when the backend
    answers with a missing or empty text, the analysis fails with the
    error "No response generated" after that single request, having
    logged "Analysis failed". *)
Theorem analyzeDocument_empty_response (env : Env) (context : DocumentContext)
    (level : ComprehensionLevel) (tr : Trace) (r : Response) :
  backend env (remote_calls tr)
    (analysisRequest (analysis_parts context (analysis_prompt level))) = Ok r ->
  Js.truthy (response_text r) = false ->
  analyzeDocument env context level tr
  = (Throw (new_Error "No response generated"),
     tr ++ [EvRemote (analysisRequest (analysis_parts context (analysis_prompt level)));
            EvError "Analysis failed"]).
Proof.
  intros Hok Hempty. rewrite analyzeDocument_of_retry.
  set (parts := analysis_parts context (analysis_prompt level)) in *.
  rewrite (retry_settled_at_once (generateOp env parts) default_retries default_delay tr
             (tr ++ [EvRemote (analysisRequest parts)])
             (Throw (new_Error "No response generated"))).
  - rewrite <- app_assoc. reflexivity.
  - unfold generateOp, bind, remote, throw. rewrite Hok. simpl.
    destruct (response_text r) as [t |]; [| reflexivity].
    simpl in Hempty. rewrite Hempty. reflexivity.
  - reflexivity.
Qed.

Lemma analyzeDocument_empty_response_witness :
  fst (analyzeDocument (Sample.replying Sample.silent) Sample.photosynthesis Graduate [])
  = Throw (new_Error "No response generated").
Proof.
  exact (f_equal fst
           (analyzeDocument_empty_response (Sample.replying Sample.silent)
              Sample.photosynthesis Graduate [] Sample.silent eq_refl eq_refl)).
Defined.

(** X4. A parser failure counts as an attempt's failure and goes
    through the same classification: when the backend keeps answering
    with a text the parser refuses with an error whose message carries a
    retry marker, the request is sent four times, with suspensions of
    1000, 2000 and 4000 ms, before that error is raised. *)
Theorem analyzeDocument_retries_marked_parse_error (env : Env)
    (context : DocumentContext) (level : ComprehensionLevel) (tr : Trace)
    (r : Response) (t : string) (e : JsError) :
  (forall n, backend env n
               (analysisRequest (analysis_parts context (analysis_prompt level))) = Ok r) ->
  response_text r = Some t ->
  t <> ""%string ->
  JSON_parse env t = Throw e ->
  isRetryable e = true ->
  exists ext,
    analyzeDocument env context level tr = (Throw e, tr ++ ext)
    /\ remote_calls ext = 4%nat
    /\ sleeps ext = [1000; 2000; 4000]%Z.
Proof.
  intros Hok Htext Hne Hparse Hretry.
  set (parts := analysis_parts context (analysis_prompt level)) in *.
  assert (Hout : forall tr', fst (generateOp env parts tr') = Throw e).
  { intros tr'. rewrite (generateOp_outcome env parts tr'), Hok.
    unfold analysis_outcome. rewrite Htext. unfold Js.truthy.
    apply String.eqb_neq in Hne. rewrite Hne. exact Hparse. }
  assert (Htrans : always_transient (generateOp env parts)).
  { intros tr'. exists e. split; [apply Hout | exact Hretry]. }
  destruct (retry_runs_whole_schedule (generateOp env parts)
              (generateOp_one_call env parts) Htrans 3%nat default_delay tr)
    as (e' & tr_last & ext & Hrun & Hsteps & Hlast).
  assert (e' = e) as ->.
  { pose proof (Hout tr_last) as H. rewrite Hlast in H. simpl in H. congruence. }
  exists (ext ++ [EvError "Analysis failed"]).
  rewrite analyzeDocument_of_retry. fold parts.
  change default_retries with (Z.of_nat 3). rewrite Hrun.
  split; [rewrite app_assoc; reflexivity |].
  split.
  - rewrite remote_calls_steps, steps_snoc_error, Hsteps. reflexivity.
  - rewrite sleeps_steps, steps_snoc_error, Hsteps. reflexivity.
Qed.

Lemma analyzeDocument_retries_marked_parse_error_witness :
  exists ext,
    analyzeDocument Sample.unparsable Sample.photosynthesis Undergraduate []
    = (Throw Sample.syntax_error, ext)
    /\ remote_calls ext = 4%nat.
Proof.
  destruct (analyzeDocument_retries_marked_parse_error Sample.unparsable
              Sample.photosynthesis Undergraduate [] Sample.structured "{...}"
              Sample.syntax_error (fun _ => eq_refl) eq_refl ltac:(discriminate)
              eq_refl eq_refl)
    as (ext & Hrun & Hcalls & _).
  exists ext. split; [exact Hrun | exact Hcalls].
Defined.

(** ** Failure and fallback behaviour of the other service functions *)

(** X5. A chat turn always yields a reply and never raises: the
    response's text when it is non-empty, "I couldn't generate a
    response." when the text is missing or empty, and the apology
    "Sorry, I encountered an error processing your request." (after
    logging "Chat failed") when the request fails. *)
Theorem sendChatMessage_always_replies (env : Env) (history : list Content)
    (newMessage : string) (context : DocumentContext) (tr : Trace) :
  (exists reply, fst (sendChatMessage env history newMessage context tr) = Ok reply)
  /\ (forall r,
        backend env (remote_calls tr) (chatRequest history newMessage context) = Ok r ->
        sendChatMessage env history newMessage context tr
        = (Ok (Js.or_else (response_text r) "I couldn't generate a response."),
           tr ++ [EvRemote (chatRequest history newMessage context)])
        /\ (Js.truthy (response_text r) = false ->
            Js.or_else (response_text r) "I couldn't generate a response."
            = "I couldn't generate a response."%string)
        /\ (forall t, response_text r = Some t -> t <> ""%string ->
            Js.or_else (response_text r) "I couldn't generate a response." = t))
  /\ (forall e,
        backend env (remote_calls tr) (chatRequest history newMessage context) = Throw e ->
        sendChatMessage env history newMessage context tr
        = (Ok "Sorry, I encountered an error processing your request."%string,
           tr ++ [EvRemote (chatRequest history newMessage context);
                  EvError "Chat failed"])).
Proof.
  unfold sendChatMessage, try_catch, bind, remote, ret, emit.
  split; [| split].
  - destruct (backend env _ _); simpl; eexists; reflexivity.
  - intros r Hok. rewrite Hok. simpl. split; [reflexivity |]. split.
    + destruct (response_text r) as [t |]; simpl; [| reflexivity].
      destruct (t =? "")%string; [reflexivity | discriminate].
    + intros t -> Hne. simpl. apply String.eqb_neq in Hne. rewrite Hne. reflexivity.
  - intros e Hfail. rewrite Hfail. simpl. rewrite <- app_assoc. reflexivity.
Qed.

(** X6. Speech synthesis fails with "No audio data returned" when the
    response carries no inline audio, or an empty one: one request is
    made, "TTS failed" is logged and the error is raised to the caller. *)
Theorem generateSpeech_without_audio (env : Env) (text : string) (tr : Trace)
    (r : Response) :
  backend env (remote_calls tr) (speechRequest text) = Ok r ->
  Js.truthy (inlineAudio r) = false ->
  generateSpeech env text tr
  = (Throw (new_Error "No audio data returned"),
     tr ++ [EvRemote (speechRequest text); EvError "TTS failed"]).
Proof.
  intros Hok Hnone.
  unfold generateSpeech, try_catch, bind, remote, ret, emit, throw.
  rewrite Hok. simpl.
  destruct (inlineAudio r) as [a |]; simpl in *.
  - rewrite Hnone. simpl. rewrite <- app_assoc. reflexivity.
  - rewrite <- app_assoc. reflexivity.
Qed.

Lemma generateSpeech_without_audio_witness :
  fst (generateSpeech (Sample.replying Sample.silent) "Read this aloud." [])
  = Throw (new_Error "No audio data returned").
Proof.
  exact (f_equal fst
           (generateSpeech_without_audio (Sample.replying Sample.silent)
              "Read this aloud." [] Sample.silent eq_refl eq_refl)).
Defined.

(** X7. Speech synthesis and transcription do not absorb a failed
    request: the very error the backend raised is re-raised to the
    caller, after a single request and one console error ("TTS failed",
    "Transcription failed"). *)
Theorem speech_and_transcription_reraise (env : Env) (text : string)
    (audioBlob : File) (tr : Trace) (e : JsError) :
  (forall req, backend env (remote_calls tr) req = Throw e) ->
  generateSpeech env text tr
  = (Throw e, tr ++ [EvRemote (speechRequest text); EvError "TTS failed"])
  /\ exists req,
      transcribeUserAudio env audioBlob tr
      = (Throw e, tr ++ [EvRemote req; EvError "Transcription failed"]).
Proof.
  intros Hfail. split.
  - unfold generateSpeech, try_catch, bind, remote, emit, throw.
    rewrite Hfail. simpl. rewrite <- app_assoc. reflexivity.
  - eexists. unfold transcribeUserAudio, try_catch, bind, remote, emit, throw.
    rewrite Hfail. simpl. rewrite <- app_assoc. reflexivity.
Qed.

Lemma speech_and_transcription_reraise_witness :
  fst (generateSpeech (Sample.failing Sample.overloaded) "Read this aloud." [])
  = Throw Sample.overloaded.
Proof.
  exact (f_equal fst
           (proj1 (speech_and_transcription_reraise (Sample.failing Sample.overloaded)
                     "Read this aloud." Sample.paper [] Sample.overloaded
                     (fun _ => eq_refl)))).
Defined.




(** X9. Decoding succeeds exactly on a non-empty buffer with an even
    number of bytes: an odd byte length is refused by the Int16Array
    view and an empty buffer by createBuffer, so in both cases the
    function throws instead of returning an audio buffer. *)
Theorem createAudioBufferFromPCM_succeeds_iff (rawBuffer : list byte) (rate : Z) :
  (exists audio, createAudioBufferFromPCM rawBuffer rate = Ok audio)
  <-> rawBuffer <> [] /\ Nat.even (length rawBuffer) = true.
Proof.
  unfold createAudioBufferFromPCM, new_Int16Array, createBuffer.
  split.
  - intros [audio Hrun].
    destruct (Nat.even (length rawBuffer)) eqn:Heven; [| discriminate].
    split; [| reflexivity].
    intros ->. discriminate.
  - intros [Hne Heven]. rewrite Heven.
    pose proof (int16_view_length rawBuffer Heven) as Hlen.
    destruct (Nat.eqb_spec (length (int16_view rawBuffer)) 0) as [H0 | Hpos].
    + rewrite H0 in Hlen. destruct rawBuffer; [congruence | discriminate Hlen].
    + eexists. reflexivity.
Qed.

(** ** White space *)

Lemma trimStart_empty (s : string) :
  JsText.trimStart s = ""%string <-> all_chars JsText.is_space s = true.
Proof.
  induction s as [| c s IH]; simpl; [tauto |].
  destruct (JsText.is_space c); simpl; [exact IH |].
  split; discriminate.
Qed.

Lemma trimEnd_empty (s : string) :
  JsText.trimEnd s = ""%string <-> all_chars JsText.is_space s = true.
Proof.
  induction s as [| c s IH]; simpl; [tauto |].
  destruct (JsText.trimEnd s) as [| d r] eqn:Hend.
  - destruct (JsText.is_space c); simpl.
    + split; [intros _; apply IH; reflexivity | reflexivity].
    + split; discriminate.
  - split; [discriminate |].
    intros H. apply andb_true_iff in H as [_ H]. apply IH in H. discriminate.
Qed.

Lemma trimStart_head (s : string) :
  match JsText.trimStart s with
  | EmptyString => True
  | String c _ => JsText.is_space c = false
  end.
Proof.
  induction s as [| c s IH]; simpl; [exact I |].
  destruct (JsText.is_space c) eqn:Hc; [exact IH | exact Hc].
Qed.

(** [!s.trim()] holds exactly for strings made of white space only. *)
Lemma blank_iff_spaces (s : string) :
  JsText.blank s = true <-> all_chars JsText.is_space s = true.
Proof.
  unfold JsText.blank, JsText.trim, Js.truthy. rewrite negb_involutive, String.eqb_eq.
  rewrite trimEnd_empty. split.
  - intros Hall. apply trimStart_empty.
    pose proof (trimStart_head s) as Hhead.
    destruct (JsText.trimStart s) as [| c r]; [reflexivity |].
    simpl in Hall. rewrite Hhead in Hall. discriminate.
  - intros Hall. apply trimStart_empty in Hall. rewrite Hall. reflexivity.
Qed.

(** ** The landing page *)

(** X10. Whatever the state of the landing page, the call its submit
    handler makes pairs the discriminator with a payload of the matching
    kind, so building the document context from it never fails with
    "Invalid input"; text and URL are passed on untrimmed, and nothing
    is submitted for a blank text or URL or without a selected file. *)
Theorem landing_submit_is_well_typed (st : Landing.State) (type : DocumentInputType)
    (content : Payload) (level : ComprehensionLevel) (tr : Trace) :
  Landing.handleSubmit st = Some (type, content, level) ->
  (exists context, buildContext type content tr = (Ok context, tr))
  /\ type = Landing.activeTab st
  /\ level = Landing.selectedLevel st
  /\ match type with
     | pdf => exists file, Landing.selectedFile st = Some file /\ content = FilePayload file
     | text => content = StringPayload (Landing.textInput st)
               /\ all_chars JsText.is_space (Landing.textInput st) = false
     | url => content = StringPayload (Landing.urlInput st)
              /\ all_chars JsText.is_space (Landing.urlInput st) = false
     end.
Proof.
  unfold Landing.handleSubmit. intros Hsubmit.
  assert (Hblank : forall s, JsText.blank s = false ->
                     all_chars JsText.is_space s = false).
  { intros s Hs. destruct (all_chars JsText.is_space s) eqn:Hall; [| reflexivity].
    apply blank_iff_spaces in Hall. congruence. }
  destruct (Landing.activeTab st).
  - destruct (Landing.selectedFile st) as [file |]; [| discriminate].
    injection Hsubmit as <- <- <-.
    split; [eexists; reflexivity |]. repeat split. eauto.
  - destruct (JsText.blank (Landing.textInput st)) eqn:Hb; [discriminate |].
    injection Hsubmit as <- <- <-.
    split; [eexists; reflexivity |]. repeat split. apply Hblank, Hb.
  - destruct (JsText.blank (Landing.urlInput st)) eqn:Hb; [discriminate |].
    injection Hsubmit as <- <- <-.
    split; [eexists; reflexivity |]. repeat split. apply Hblank, Hb.
Qed.

Lemma landing_submit_is_well_typed_witness :
  exists context,
    buildContext text (StringPayload " Photosynthesis. ") [] = (Ok context, []).
Proof.
  exact (proj1 (landing_submit_is_well_typed
                  {| Landing.activeTab := text; Landing.selectedLevel := Graduate;
                     Landing.textInput := " Photosynthesis. "; Landing.urlInput := "";
                     Landing.selectedFile := None; Landing.dragActive := false |}
                  text (StringPayload " Photosynthesis. ") Graduate [] eq_refl)).
Defined.

(** X11. The submit handler acts exactly when the submit button is
    enabled: with no analysis in progress, the handler calls onAnalyze
    if and only if isSubmitDisabled is false; and while an analysis is
    in progress the button is disabled. *)
Theorem landing_submit_iff_enabled (st : Landing.State) :
  (Landing.handleSubmit st = None <-> Landing.isSubmitDisabled false st = true)
  /\ Landing.isSubmitDisabled true st = true.
Proof.
  unfold Landing.handleSubmit, Landing.isSubmitDisabled.
  split; [| reflexivity].
  destruct (Landing.activeTab st).
  - destruct (Landing.selectedFile st); split; congruence.
  - destruct (JsText.blank (Landing.textInput st)); split; congruence.
  - destruct (JsText.blank (Landing.urlInput st)); split; congruence.
Qed.

(** X12. A drop selects a file only if its type is exactly
    application/pdf: afterwards the selection and the tab are either as
    before, or the dropped file with that type on the PDF tab. The alert
    "Please upload a PDF file." is raised exactly when a first file of
    another type was dropped, and then nothing is selected. The drag
    highlight is always cleared; text, URL and level are untouched. *)
Theorem landing_drop_accepts_only_pdf (files : list File) (st : Landing.State)
    (tr : Trace) :
  exists st' ext,
    Landing.handleDrop files st tr = (Ok st', tr ++ ext)
    /\ Landing.dragActive st' = false
    /\ Landing.textInput st' = Landing.textInput st
    /\ Landing.urlInput st' = Landing.urlInput st
    /\ Landing.selectedLevel st' = Landing.selectedLevel st
    /\ ((Landing.selectedFile st' = Landing.selectedFile st
         /\ Landing.activeTab st' = Landing.activeTab st)
        \/ (exists file,
              head files = Some file
              /\ file_type file = "application/pdf"%string
              /\ Landing.selectedFile st' = Some file
              /\ Landing.activeTab st' = pdf))
    /\ ((ext = [] /\ forall file, head files = Some file ->
                       file_type file = "application/pdf"%string)
        \/ (ext = [EvAlert "Please upload a PDF file."]
            /\ (exists file, head files = Some file
                             /\ file_type file <> "application/pdf"%string)
            /\ Landing.selectedFile st' = Landing.selectedFile st
            /\ Landing.activeTab st' = Landing.activeTab st)).
Proof.
  unfold Landing.handleDrop, bind, emit, ret.
  destruct files as [| file rest].
  - eexists _, []. rewrite app_nil_r.
    repeat split; [left; split; reflexivity | left; split; [reflexivity | discriminate]].
  - destruct (String.eqb_spec (file_type file) "application/pdf") as [Hpdf | Hother].
    + eexists _, []. rewrite app_nil_r. repeat split.
      * right. exists file. repeat split. exact Hpdf.
      * left. split; [reflexivity |]. simpl. intros f [= <-]. exact Hpdf.
    + eexists _, [_]. repeat split.
      * left. split; reflexivity.
      * right. repeat split. exists file. split; [reflexivity | exact Hother].
Qed.





(** ** The chat view *)

Lemma sendChatMessage_run (env : Env) (history : list Content) (newMessage : string)
    (context : DocumentContext) (tr : Trace) :
  exists reply ext,
    sendChatMessage env history newMessage context tr
    = (Ok reply, tr ++ EvRemote (chatRequest history newMessage context) :: ext)
    /\ steps ext = []
    /\ (forall e,
          backend env (remote_calls tr) (chatRequest history newMessage context) = Throw e ->
          reply = "Sorry, I encountered an error processing your request."%string).
Proof.
  unfold sendChatMessage, try_catch, bind, remote, ret, emit.
  destruct (backend env _ _) as [r | e]; simpl.
  - eexists _, []. repeat split. discriminate.
  - eexists _, [_]. rewrite <- app_assoc. repeat split.
Qed.

Lemma transcript_turns_valid (messages : list ChatView.ChatMessage) :
  Forall (fun c => isValidContent c = true) (List.map ChatView.turn_of messages).
Proof. apply Forall_map. apply Forall_forall. intros m _. reflexivity. Qed.

(** X14. Submitting a non-blank message while no request is pending
    sends one chat request whose history is the transcript shown so far
    (each message as a turn of its role, ids and error flags left out)
    and whose message is the input as typed; afterwards the transcript
    has grown by the user's message and the reply, the input is empty
    and the loading flag is off. A failed request shows up as the
    service's apology in an ordinary reply. *)
Theorem chat_submit_sends_transcript (env : Env) (context : DocumentContext)
    (now1 now2 now3 : Z) (st : ChatView.State) (tr : Trace) :
  JsText.blank (ChatView.input st) = false ->
  ChatView.isLoading st = false ->
  exists reply ext,
    ChatView.handleSubmit env context now1 now2 now3 st tr
    = (Ok {| ChatView.messages :=
               ChatView.messages st
               ++ [{| ChatView.id := pretty now1; ChatView.msg_role := user;
                      ChatView.msg_text := ChatView.input st;
                      ChatView.isError := None |};
                   {| ChatView.id := pretty (now2 + 1)%Z; ChatView.msg_role := model;
                      ChatView.msg_text := reply; ChatView.isError := None |}];
             ChatView.input := "";
             ChatView.isLoading := false;
             ChatView.isTranscribing := ChatView.isTranscribing st;
             ChatView.toast := ChatView.toast st |},
       tr ++ EvRemote (chatRequest (List.map ChatView.turn_of (ChatView.messages st))
                         (ChatView.input st) context) :: ext)
    /\ steps ext = []
    /\ transmitted (chatRequest (List.map ChatView.turn_of (ChatView.messages st))
                      (ChatView.input st) context)
       = contextMessage context :: acknowledgment
         :: List.map ChatView.turn_of (ChatView.messages st)
         ++ [user_turn (ChatView.input st)]
    /\ (forall e,
          backend env (remote_calls tr)
            (chatRequest (List.map ChatView.turn_of (ChatView.messages st))
               (ChatView.input st) context) = Throw e ->
          reply = "Sorry, I encountered an error processing your request."%string).
Proof.
  intros Hblank Hloading.
  destruct (sendChatMessage_run env (List.map ChatView.turn_of (ChatView.messages st))
              (ChatView.input st) context tr) as (reply & ext & Hrun & Hsteps & Hfail).
  exists reply, ext.
  unfold ChatView.handleSubmit. rewrite Hblank, Hloading. simpl.
  unfold try_catch, bind. simpl. rewrite Hrun. simpl.
  rewrite <- app_assoc.
  split; [reflexivity |]. split; [exact Hsteps |].
  split; [apply fullHistory_transmitted, transcript_turns_valid | exact Hfail].
Qed.

Lemma chat_submit_sends_transcript_witness :
  exists reply ext,
    snd (ChatView.handleSubmit (Sample.failing Sample.overloaded) Sample.photosynthesis
           1700000000000 1700000000900 1700000000901
           (ChatView.with_input Sample.question ChatView.initial) [])
    = EvRemote (chatRequest [ChatView.turn_of ChatView.greeting] Sample.question
                  Sample.photosynthesis) :: ext
    /\ reply = "Sorry, I encountered an error processing your request."%string.
Proof.
  destruct (chat_submit_sends_transcript (Sample.failing Sample.overloaded)
              Sample.photosynthesis 1700000000000 1700000000900 1700000000901
              (ChatView.with_input Sample.question ChatView.initial) []
              eq_refl eq_refl)
    as (reply & ext & Hrun & _ & _ & Hfail).
  exists reply, ext. split.
  - rewrite Hrun. reflexivity.
  - apply (Hfail Sample.overloaded). reflexivity.
Defined.

(** X15. The submit handler only ever appends to the transcript: the
    messages shown before stay, in order, at the front; it adds nothing
    (blank input, or a request pending) or exactly two messages, and no
    message it adds carries the error flag, whatever the backend does. *)
Theorem chat_submit_is_append_only (env : Env) (context : DocumentContext)
    (now1 now2 now3 : Z) (st : ChatView.State) (tr : Trace) :
  exists st' added,
    fst (ChatView.handleSubmit env context now1 now2 now3 st tr) = Ok st'
    /\ ChatView.messages st' = ChatView.messages st ++ added
    /\ (added = [] \/ length added = 2%nat)
    /\ Forall (fun m => ChatView.isError m = None) added
    /\ (JsText.blank (ChatView.input st) || ChatView.isLoading st = true ->
        st' = st /\ snd (ChatView.handleSubmit env context now1 now2 now3 st tr) = tr).
Proof.
  destruct (JsText.blank (ChatView.input st) || ChatView.isLoading st) eqn:Hguard.
  - exists st, []. unfold ChatView.handleSubmit. rewrite Hguard.
    rewrite app_nil_r. repeat split; auto.
  - apply orb_false_iff in Hguard as [Hblank Hloading].
    destruct (sendChatMessage_run env (List.map ChatView.turn_of (ChatView.messages st))
                (ChatView.input st) context tr) as (reply & ext & Hrun & _).
    unfold ChatView.handleSubmit. rewrite Hblank, Hloading. simpl.
    unfold try_catch, bind. simpl. rewrite Hrun. simpl.
    eexists _, [_; _]. split; [reflexivity |]. simpl.
    split; [rewrite <- app_assoc; reflexivity |].
    split; [right; reflexivity |].
    split; [repeat constructor | discriminate].
Qed.

(** X16. The first message of a chat session is sent with the view's
    own greeting as a model turn of the history: the request transmits
    four turns, the two seed turns, the greeting "Hello! I've analyzed
    the paper. What would you like to know?" and the user's message. *)
Theorem chat_first_submission_sends_greeting (env : Env) (context : DocumentContext)
    (now1 now2 now3 : Z) (question : string) (tr : Trace) :
  JsText.blank question = false ->
  exists req ext,
    snd (ChatView.handleSubmit env context now1 now2 now3
           (ChatView.with_input question ChatView.initial) tr)
    = tr ++ EvRemote req :: ext
    /\ steps ext = []
    /\ transmitted req
       = [contextMessage context;
          acknowledgment;
          {| role := Some model;
             parts := [TextPart "Hello! I've analyzed the paper. What would you like to know?"] |};
          user_turn question]
    /\ length (transmitted req) = 4%nat.
Proof.
  intros Hblank.
  destruct (sendChatMessage_run env [ChatView.turn_of ChatView.greeting]
              question context tr) as (reply & ext & Hrun & Hsteps & _).
  exists (chatRequest [ChatView.turn_of ChatView.greeting] question context), ext.
  rewrite (fullHistory_transmitted [ChatView.turn_of ChatView.greeting] question context
             (transcript_turns_valid [ChatView.greeting])).
  unfold ChatView.handleSubmit. simpl. rewrite Hblank. simpl.
  unfold try_catch, bind. simpl. rewrite Hrun. simpl.
  repeat split. exact Hsteps.
Qed.

Lemma chat_first_submission_sends_greeting_witness :
  exists req ext,
    snd (ChatView.handleSubmit (Sample.replying Sample.answer) Sample.photosynthesis
           1700000000000 1700000000900 1700000000901
           (ChatView.with_input Sample.question ChatView.initial) [])
    = EvRemote req :: ext
    /\ length (transmitted req) = 4%nat.
Proof.
  destruct (chat_first_submission_sends_greeting (Sample.replying Sample.answer)
              Sample.photosynthesis 1700000000000 1700000000900 1700000000901
              Sample.question [] eq_refl)
    as (req & ext & Hsnd & _ & _ & Hlen).
  exists req, ext. split; [exact Hsnd | exact Hlen].
Defined.

Ltac split_conj := repeat match goal with |- _ /\ _ => split end.



(** ** The dashboard *)


(** ** Playing the summary *)

Lemma list_byte_of_string_length (s : string) :
  length (list_byte_of_string s) = String.length s.
Proof.
  induction s as [| c s IH]; simpl; [reflexivity |].
  unfold list_byte_of_string in *. simpl. rewrite IH. reflexivity.
Qed.

Lemma decoded_buffer_facts (rawBuffer : list byte) (rate : Z) (audio : AudioBuffer) :
  createAudioBufferFromPCM rawBuffer rate = Ok audio ->
  sampleRate audio = rate
  /\ numberOfChannels audio = 1%nat
  /\ (2 * frames audio)%nat = length rawBuffer
  /\ rawBuffer <> []
  /\ Forall (fun x => (-1 <= x <= 1)%Q) (channelData audio).
Proof.
  unfold createAudioBufferFromPCM, new_Int16Array, createBuffer.
  destruct (Nat.even (length rawBuffer)) eqn:Heven; [| discriminate].
  pose proof (int16_view_length rawBuffer Heven) as Hlen.
  destruct (Nat.eqb_spec (length (int16_view rawBuffer)) 0) as [H0 | Hpos];
    [discriminate |].
  intros [= <-]. simpl.
  split; [reflexivity |]. split; [reflexivity |]. split; [exact Hlen |].
  split; [intros ->; simpl in Hpos; congruence |].
  rewrite (fill_whole (int16_view rawBuffer) (fun s => (inject_Z s / 32768)%Q)).
  apply Forall_map. eapply Forall_impl; [apply int16_view_range |].
  intros s Hs. apply rescaled_in_range, Hs.
Qed.

Lemma odd_or_empty_is_refused (rawBuffer : list byte) (rate : Z) :
  Nat.even (length rawBuffer) = false \/ rawBuffer = [] ->
  exists e, createAudioBufferFromPCM rawBuffer rate = Throw e.
Proof.
  unfold createAudioBufferFromPCM, new_Int16Array, createBuffer.
  intros [Hodd | ->].
  - rewrite Hodd. eexists. reflexivity.
  - simpl. eexists. reflexivity.
Qed.

Ltac failed_playback :=
  eexists _, _; rewrite <- ?app_assoc; split_conj;
  first [ reflexivity
        | right; split_conj; reflexivity
        | intros; reflexivity ].

(** X19. Playing the summary: while audio is playing the handler does
    nothing and sends nothing. Otherwise it sends one synthesis request
    (carrying at most the first 400 code units of the summary), never
    raises, and ends either playing a decoded buffer at 24000 Hz whose
    frames all lie in [-1, 1], with the toast "Playing summary audio",
    or not playing, with the toast "Failed to generate speech". It ends
    in the failure state whenever the request fails, the response has no
    audio, or the decoded audio is empty or has an odd number of bytes. *)
Theorem dashboard_play_audio (env : Env) (summary : string) (st : Dashboard.State)
    (tr : Trace) :
  (Dashboard.isPlayingAudio st = true ->
   Dashboard.handlePlayAudio env summary st tr = (Ok st, tr))
  /\ (Dashboard.isPlayingAudio st = false ->
      exists st' ext,
        Dashboard.handlePlayAudio env summary st tr
        = (Ok st', tr ++ EvRemote (speechRequest summary) :: ext)
        /\ steps ext = []
        /\ Dashboard.searchResults st' = Dashboard.searchResults st
        /\ ((Dashboard.isPlayingAudio st' = true
             /\ Dashboard.toast st' = Some ("Playing summary audio"%string, ChatView.success)
             /\ exists audio,
                 Dashboard.started st' = Some audio
                 /\ sampleRate audio = 24000%Z
                 /\ Forall (fun x => (-1 <= x <= 1)%Q) (channelData audio))
            \/ (Dashboard.isPlayingAudio st' = false
                /\ Dashboard.toast st'
                   = Some ("Failed to generate speech"%string, ChatView.error)
                /\ Dashboard.started st' = Dashboard.started st))
        /\ (forall e, backend env (remote_calls tr) (speechRequest summary) = Throw e ->
            Dashboard.isPlayingAudio st' = false)
        /\ (forall r, backend env (remote_calls tr) (speechRequest summary) = Ok r ->
            Js.truthy (inlineAudio r) = false ->
            Dashboard.isPlayingAudio st' = false)
        /\ (forall r a s,
              backend env (remote_calls tr) (speechRequest summary) = Ok r ->
              inlineAudio r = Some a -> atob env a = Ok s ->
              Nat.even (String.length s) = false \/ s = ""%string ->
              Dashboard.isPlayingAudio st' = false)).
Proof.
  unfold Dashboard.handlePlayAudio.
  split; intros Hplaying; rewrite Hplaying; [reflexivity |].
  unfold generateSpeech, try_catch, bind, remote, ret, emit, throw.
  destruct (backend env (remote_calls tr) (speechRequest summary)) as [r | e]; simpl.
  2: { failed_playback. }
  destruct (inlineAudio r) as [a |] eqn:Haudio; simpl.
  2: { failed_playback. }
  destruct (negb (a =? ""))%string eqn:Hne; simpl.
  2: { failed_playback. }
  destruct (atob env a) as [s | e] eqn:Hatob; simpl.
  2: { failed_playback. }
  destruct (createAudioBufferFromPCM (list_byte_of_string s) 24000) as [audio | e]
    eqn:Hdecode; simpl.
  - apply decoded_buffer_facts in Hdecode as Hfacts.
    destruct Hfacts as (Hrate & _ & Hlen & Hnonempty & Hrange).
    eexists _, []. split_conj; try reflexivity; try discriminate.
    + left. split_conj; try reflexivity. exists audio. split_conj; auto.
    + intros r' [= <-] Hfalsy. rewrite Haudio in Hfalsy. simpl in Hfalsy. congruence.
    + intros r' a' s' [= <-] Ha' Hs' Hbad.
      rewrite Haudio in Ha'. injection Ha' as <-. rewrite Hatob in Hs'. injection Hs' as <-.
      exfalso. destruct Hbad as [Hodd | ->].
      * rewrite list_byte_of_string_length in Hlen.
        rewrite <- Hlen, Nat.even_mul in Hodd. discriminate.
      * apply Hnonempty. reflexivity.
  - failed_playback.
Qed.

(** ** The MediaAnalysis component *)

Lemma split_nonempty (sep : ascii) (s : string) : Js.split sep s <> [].
Proof.
  destruct s as [| c s]; simpl; [discriminate |].
  destruct (Ascii.eqb c sep); [discriminate |].
  destruct (Js.split sep s); discriminate.
Qed.

Lemma join_cons_char (sep c : ascii) (p : string) (rest : list string) :
  MediaAnalysis.join sep (String c p :: rest)
  = String c (MediaAnalysis.join sep (p :: rest)).
Proof. destruct rest; reflexivity. Qed.

(** X21. MediaAnalysis renders one paragraph per line of the result:
    there is one more paragraph than there are line feeds, no paragraph
    contains a line feed, and the paragraphs joined by line feeds give
    the result back. *)
Theorem media_analysis_paragraphs (result : string) :
  MediaAnalysis.join MediaAnalysis.line_feed (MediaAnalysis.paragraphs result) = result
  /\ length (MediaAnalysis.paragraphs result)
     = S (MediaAnalysis.count MediaAnalysis.line_feed result)
  /\ Forall (fun p => MediaAnalysis.count MediaAnalysis.line_feed p = 0%nat)
       (MediaAnalysis.paragraphs result).
Proof.
  unfold MediaAnalysis.paragraphs.
  generalize MediaAnalysis.line_feed as sep. intros sep.
  induction result as [| c s (Hjoin & Hlen & Hnone)]; simpl.
  - repeat split. repeat constructor.
  - destruct (Ascii.eqb c sep) eqn:Hc.
    + apply Ascii.eqb_eq in Hc. subst c. split_conj.
      * pose proof (split_nonempty sep s) as Hne.
        destruct (Js.split sep s) as [| p rest]; [congruence |].
        simpl in *. rewrite Hjoin. reflexivity.
      * simpl. rewrite Hlen. reflexivity.
      * constructor; [reflexivity | exact Hnone].
    + pose proof (split_nonempty sep s) as Hne.
      destruct (Js.split sep s) as [| p rest]; [congruence |].
      split_conj.
      * rewrite join_cons_char, Hjoin. reflexivity.
      * simpl in *. exact Hlen.
      * inversion Hnone as [| ? ? Hp Hrest]; subst.
        constructor; [| exact Hrest]. simpl. rewrite Hc. exact Hp.
Qed.

(** ** The document text in chat and in analysis *)


